(** * HomuncuLLM: the prompt relay of [main.go]

    A shallow embedding of the relay service ([LLMService.GetCompletion]) and
    of the HTTP boundary that [main] registers on the gin router, together
    with the parts of the Go libraries the program calls: [encoding/json]
    (the encoder of strings, the scanner and the decoder into structs with
    string fields), [unicode/utf8], [fmt.Errorf], and gin's routing, context
    and response writer.  Go strings are byte sequences: they are modelled by
    [string], whose characters are the 256 bytes. *)

From Stdlib Require Import ZArith List String Ascii Bool Lia DecimalString.
Import ListNotations.
Open Scope string_scope.
Open Scope Z_scope.

(** ** Bytes *)

Definition code (c : ascii) : Z := Z.of_N (N_of_ascii c).
Definition chr (z : Z) : ascii := ascii_of_N (Z.to_N z).
Definition str1 (c : ascii) : string := String c EmptyString.
Definition between (lo x hi : Z) : bool := (lo <=? x) && (x <=? hi).

(** The double quote, as a one-byte string. *)
Definition dq : string := str1 (chr 34).

(** [hex[n]] for the table [hex = "0123456789abcdef"]. *)
Definition hexDigit (n : Z) : ascii := chr (if n <? 10 then 48 + n else 87 + n).

(** [isSpace] of the JSON scanner: space, tab, carriage return, newline. *)
Definition isSpace (b : Z) : bool :=
  (b =? 32) || (b =? 9) || (b =? 13) || (b =? 10).

Fixpoint nonSpace (s : string) : bool :=
  match s with
  | EmptyString => false
  | String c t => if isSpace (code c) then nonSpace t else true
  end.

Fixpoint dropBytes (n : nat) (s : string) : string :=
  match n, s with
  | S k, String _ t => dropBytes k t
  | _, _ => s
  end.

(** ** unicode/utf8 and unicode/utf16 *)

Module utf8.

Definition RuneError : Z := 65533.
Definition RuneSelf : Z := 128.
Definition MaxRune : Z := 1114111.

Definition cont (c : ascii) : bool := between 128 (code c) 191.
Definition low6 (c : ascii) : Z := code c mod 64.

(** [DecodeRune]: the first rune of [s] and its width in bytes; an invalid
    or truncated encoding gives [(RuneError, 1)], the empty input
    [(RuneError, 0)]. *)
Definition DecodeRune (s : string) : Z * nat :=
  match s with
  | EmptyString => (RuneError, 0%nat)
  | String c0 t =>
    let b0 := code c0 in
    if b0 <? RuneSelf then (b0, 1%nat)
    else if between 194 b0 223 then
      match t with
      | String c1 _ =>
        if cont c1 then ((b0 mod 32) * 64 + low6 c1, 2%nat)
        else (RuneError, 1%nat)
      | _ => (RuneError, 1%nat)
      end
    else if between 224 b0 239 then
      match t with
      | String c1 (String c2 _) =>
        let lo := if b0 =? 224 then 160 else 128 in
        let hi := if b0 =? 237 then 159 else 191 in
        if between lo (code c1) hi && cont c2
        then ((b0 mod 16) * 4096 + low6 c1 * 64 + low6 c2, 3%nat)
        else (RuneError, 1%nat)
      | _ => (RuneError, 1%nat)
      end
    else if between 240 b0 244 then
      match t with
      | String c1 (String c2 (String c3 _)) =>
        let lo := if b0 =? 240 then 144 else 128 in
        let hi := if b0 =? 244 then 143 else 191 in
        if between lo (code c1) hi && cont c2 && cont c3
        then ((b0 mod 8) * 262144 + low6 c1 * 4096 + low6 c2 * 64 + low6 c3,
              4%nat)
        else (RuneError, 1%nat)
      | _ => (RuneError, 1%nat)
      end
    else (RuneError, 1%nat)
  end.

Definition enc3 (r : Z) : string :=
  String (chr (224 + r / 4096))
    (String (chr (128 + (r / 64) mod 64)) (str1 (chr (128 + r mod 64)))).

(** [EncodeRune]: surrogates and values out of range are written as
    [RuneError]. *)
Definition EncodeRune (r : Z) : string :=
  if between 0 r 127 then str1 (chr r)
  else if between 128 r 2047 then
    String (chr (192 + r / 64)) (str1 (chr (128 + r mod 64)))
  else if (r <? 0) || (MaxRune <? r) || between 55296 r 57343 then
    enc3 RuneError
  else if r <=? 65535 then enc3 r
  else
    String (chr (240 + r / 262144))
      (String (chr (128 + (r / 4096) mod 64))
         (String (chr (128 + (r / 64) mod 64)) (str1 (chr (128 + r mod 64))))).

End utf8.

Module utf16.

Definition IsSurrogate (r : Z) : bool := (55296 <=? r) && (r <? 57344).

Definition DecodeRune (r1 r2 : Z) : Z :=
  if (55296 <=? r1) && (r1 <? 56320) && (56320 <=? r2) && (r2 <? 57344)
  then (r1 - 55296) * 1024 + (r2 - 56320) + 65536
  else utf8.RuneError.

End utf16.

(** ** strconv *)

Module strconv.

(** [Itoa], the [%d] verb of [fmt] on an [int]. *)
Definition Itoa (n : Z) : string := NilZero.string_of_int (Z.to_int n).

(** [IsPrint] on the runes below 256. *)
Definition IsPrint (r : Z) : bool :=
  between 32 r 126 || (between 161 r 255 && negb (r =? 173)).

Definition hex2 (b : Z) : string :=
  String (hexDigit (b / 16)) (str1 (hexDigit (b mod 16))).

(** The inside of [Quote(string(c))] for a single byte [c], read as the rune
    of that value. *)
Definition quotedByte (b : Z) : string :=
  if (b =? 34) || (b =? 92) then String (chr 92) (str1 (chr b))
  else if IsPrint b then utf8.EncodeRune b
  else if b =? 7 then "\a"
  else if b =? 8 then "\b"
  else if b =? 12 then "\f"
  else if b =? 10 then "\n"
  else if b =? 13 then "\r"
  else if b =? 9 then "\t"
  else if b =? 11 then "\v"
  else if (b <? 32) || (b =? 127) then "\x" ++ hex2 b
  else "\u00" ++ hex2 b.

End strconv.

(** ** Go errors *)

(** The error values the program can meet.  [errorString] is what
    [errors.New] and a [fmt.Errorf] without [%w] build, and stands for the
    errors of the transport too, known by their text only; [wrapError] is
    what [fmt.Errorf] builds for a format with [%w]. *)
Inductive error : Type :=
| errorString (s : string)
| wrapError (msg : string) (err : error)
| io_EOF
| io_ErrUnexpectedEOF
| json_SyntaxError (msg : string)
| json_UnmarshalTypeError (Value Type_ Struct Field : string)
| validator_ValidationErrors (ns field tag : string).

(** The [Error()] method. *)
Definition Error (e : error) : string :=
  match e with
  | errorString s => s
  | wrapError msg _ => msg
  | io_EOF => "EOF"
  | io_ErrUnexpectedEOF => "unexpected EOF"
  | json_SyntaxError msg => msg
  | json_UnmarshalTypeError Value Type_ Struct Field =>
    if (Struct =? "")%string && (Field =? "")%string
    then "json: cannot unmarshal " ++ Value ++ " into Go value of type "
           ++ Type_
    else "json: cannot unmarshal " ++ Value ++ " into Go struct field "
           ++ Struct ++ "." ++ Field ++ " of type " ++ Type_
  | validator_ValidationErrors ns field tag =>
    "Key: '" ++ ns ++ "' Error:Field validation for '" ++ field
      ++ "' failed on the '" ++ tag ++ "' tag"
  end.

(** [fmt.Errorf(prefix + "%w", err)]. *)
Definition Errorf_w (prefix : string) (err : error) : error :=
  wrapError (prefix ++ Error err) err.

(** ** encoding/json *)

Set Warnings "-register-all".

Module json.

(** *** The encoder of strings ([encodeState.string] with HTML escaping) *)

Definition htmlSafeSet (b : Z) : bool :=
  between 32 b 127
  && negb ((b =? 34) || (b =? 38) || (b =? 60) || (b =? 62) || (b =? 92)).

Definition escapeByte (b : Z) : string :=
  String (chr 92)
    (if (b =? 92) || (b =? 34) then str1 (chr b)
     else if b =? 10 then "n"
     else if b =? 13 then "r"
     else if b =? 9 then "t"
     else "u00" ++ strconv.hex2 b).

(** One pass over the bytes.  [copy] counts the continuation bytes of a rune
    that was accepted and is written as it is, [drop] those of a rune that
    was replaced by an escape. *)
Fixpoint encodeBytes (copy drop : nat) (s : string) {struct s} : string :=
  match s with
  | EmptyString => EmptyString
  | String c t =>
    match copy, drop with
    | S k, _ => String c (encodeBytes k drop t)
    | O, S k => encodeBytes O k t
    | O, O =>
      let b := code c in
      if b <? utf8.RuneSelf then
        if htmlSafeSet b then String c (encodeBytes 0 0 t)
        else escapeByte b ++ encodeBytes 0 0 t
      else
        let (r, size) := utf8.DecodeRune s in
        if (r =? utf8.RuneError) && (size =? 1)%nat
        then "\u" ++ "fffd" ++ encodeBytes 0 0 t
        else if (r =? 8232) || (r =? 8233)
        then "\u202" ++ str1 (hexDigit (r mod 16))
               ++ encodeBytes 0 (size - 1) t
        else String c (encodeBytes (size - 1) 0 t)
    end
  end.

Definition encodeString (s : string) : string :=
  dq ++ encodeBytes 0 0 s ++ dq.

Fixpoint encodeMembers (fields : list (string * string)) : string :=
  match fields with
  | [] => ""
  | [(k, v)] => encodeString k ++ ":" ++ encodeString v
  | (k, v) :: rest =>
    encodeString k ++ ":" ++ encodeString v ++ "," ++ encodeMembers rest
  end.

(** [Marshal] of a struct whose fields are strings, given as the JSON names
    and values in declaration order, and of a [map[string]any] with one
    string entry.  It has no failing case. *)
Definition Marshal (fields : list (string * string)) : string * option error :=
  ("{" ++ encodeMembers fields ++ "}", None).

(** *** Values *)

Inductive value : Type :=
| JNull
| JBool (b : bool)
| JNumber (lit : string)
| JString (s : string)
| JArray (elems : list value)
| JObject (members : list (string * value)).

(** The [Value] of an [UnmarshalTypeError]. *)
Definition kind (v : value) : string :=
  match v with
  | JNull => "null"
  | JBool _ => "bool"
  | JNumber _ => "number"
  | JString _ => "string"
  | JArray _ => "array"
  | JObject _ => "object"
  end.

(** *** String literals ([unquoteBytes]) *)

(** A string literal as the scanner has accepted it: plain bytes, the
    two-byte escapes (held decoded) and the [\uXXXX] escapes. *)
Inductive chunk : Type :=
| Raw (c : ascii)
| Esc (c : ascii)
| EscU (r : Z).

Fixpoint rawPrefix (n : nat) (l : list chunk) : string :=
  match n, l with
  | S k, Raw c :: t => String c (rawPrefix k t)
  | _, _ => EmptyString
  end.

(** [drop] counts the chunks already consumed with the previous one: the
    continuation bytes of a rune, the low half of a surrogate pair. *)
Fixpoint unquote (drop : nat) (l : list chunk) {struct l} : string :=
  match l with
  | [] => EmptyString
  | ch :: t =>
    match drop with
    | S k => unquote k t
    | O =>
      match ch with
      | Esc c => String c (unquote 0 t)
      | EscU rr =>
        if utf16.IsSurrogate rr then
          match t with
          | EscU rr1 :: _ =>
            let dec := utf16.DecodeRune rr rr1 in
            if dec =? utf8.RuneError
            then utf8.EncodeRune utf8.RuneError ++ unquote 0 t
            else utf8.EncodeRune dec ++ unquote 1 t
          | _ => utf8.EncodeRune utf8.RuneError ++ unquote 0 t
          end
        else utf8.EncodeRune rr ++ unquote 0 t
      | Raw c =>
        if code c <? utf8.RuneSelf then String c (unquote 0 t)
        else
          let (r, size) := utf8.DecodeRune (rawPrefix 4 l) in
          utf8.EncodeRune r ++ unquote (size - 1) t
      end
    end
  end.

(** *** The scanner *)

Definition maxNestingDepth : Z := 10000.

(** [quoteChar]. *)
Definition quoteChar (b : Z) : string :=
  if b =? 39 then "'\''"
  else if b =? 34 then "'" ++ dq ++ "'"
  else "'" ++ strconv.quotedByte b ++ "'".

(** The message [scanner.error] records. *)
Definition syntaxMsg (b : Z) (context : string) : string :=
  "invalid character " ++ quoteChar b ++ " " ++ context.

(** The enclosing containers, innermost first, each waiting for the value
    being read: an array with the elements before it, an object with the
    members before it and the key of the pending member.  Lists are kept in
    reverse. *)
Inductive frame : Type :=
| inArray (elems : list value)
| inObject (members : list (string * value)) (key : string).

(** The container just left by a value. *)
Inductive container : Type :=
| CArray (elems : list value)
| CObject (members : list (string * value)).

(** Whether the string being read is a key of the object with these members
    so far, or a value. *)
Inductive strCtx : Type :=
| asKey (members : list (string * value))
| asValue.

Inductive numState : Type :=
| sNeg | s0 | s1 | sDot | sDot0 | sE | sESign | sE0.

(** The step functions of [scanner.go], with what has been read so far. *)
Inductive state : Type :=
| stateBeginValue
| stateBeginValueOrEmpty
| stateBeginStringOrEmpty
| stateBeginString (members : list (string * value))
| stateAfterKey (members : list (string * value)) (key : string)
| stateEndValue (c : container)
| stateEndTop (v : value)
| stateInString (ctx : strCtx) (acc : list chunk)
| stateInStringEsc (ctx : strCtx) (acc : list chunk)
| stateInStringEscU (ctx : strCtx) (n : nat) (r : Z) (acc : list chunk)
| stateNumber (st : numState) (lit : string)
| stateLiteral (name : string) (todo : string) (v : value).

Record scanner : Type := mkScanner {
  step : state;
  parseState : list frame
}.

Inductive opcode : Type :=
| scanContinue (s : scanner)
| scanEnd (v : value)
| scanError (msg : string).

Definition goto (st : state) (stack : list frame) : opcode :=
  scanContinue (mkScanner st stack).

(** A value is complete: it goes to the innermost container; at top level a
    container ends the scan at its closing byte, any other value at the
    byte after it. *)
Definition deliver (closing : bool) (v : value) (stack : list frame) : opcode :=
  match stack with
  | [] => if closing then scanEnd v else goto (stateEndTop v) []
  | inArray elems :: rest => goto (stateEndValue (CArray (v :: elems))) rest
  | inObject members key :: rest =>
    goto (stateEndValue (CObject ((key, v) :: members))) rest
  end.

Definition hexValue (b : Z) : option Z :=
  if between 48 b 57 then Some (b - 48)
  else if between 97 b 102 then Some (b - 87)
  else if between 65 b 70 then Some (b - 55)
  else None.

Definition isDigit (b : Z) : bool := between 48 b 57.

Definition beginValue (c : ascii) (stack : list frame) : opcode :=
  let b := code c in
  let pushed := (Z.of_nat (List.length stack) + 1 <=? maxNestingDepth) in
  if isSpace b then goto stateBeginValue stack
  else if b =? 123 then
    if pushed then goto stateBeginStringOrEmpty stack
    else scanError (syntaxMsg b "exceeded max depth")
  else if b =? 91 then
    if pushed then goto stateBeginValueOrEmpty stack
    else scanError (syntaxMsg b "exceeded max depth")
  else if b =? 34 then goto (stateInString asValue []) stack
  else if b =? 45 then goto (stateNumber sNeg (str1 c)) stack
  else if b =? 48 then goto (stateNumber s0 (str1 c)) stack
  else if b =? 116 then goto (stateLiteral "true" "rue" (JBool true)) stack
  else if b =? 102 then goto (stateLiteral "false" "alse" (JBool false)) stack
  else if b =? 110 then goto (stateLiteral "null" "ull" JNull) stack
  else if between 49 b 57 then goto (stateNumber s1 (str1 c)) stack
  else scanError (syntaxMsg b "looking for beginning of value").

Definition beginString (c : ascii) (members : list (string * value))
    (stack : list frame) : opcode :=
  let b := code c in
  if isSpace b then goto (stateBeginString members) stack
  else if b =? 34 then goto (stateInString (asKey members) []) stack
  else scanError (syntaxMsg b "looking for beginning of object key string").

(** [stateEndValue] inside a container. *)
Definition endValue (c : ascii) (k : container) (stack : list frame) : opcode :=
  let b := code c in
  if isSpace b then goto (stateEndValue k) stack
  else
    match k with
    | CObject members =>
      if b =? 44 then goto (stateBeginString members) stack
      else if b =? 125 then deliver true (JObject (rev members)) stack
      else scanError (syntaxMsg b "after object key:value pair")
    | CArray elems =>
      if b =? 44 then goto stateBeginValue (inArray elems :: stack)
      else if b =? 93 then deliver true (JArray (rev elems)) stack
      else scanError (syntaxMsg b "after array element")
    end.

(** The byte [c] read just after a value that ends without a closing byte
    of its own (a number): the value is delivered and [c] is given to
    [stateEndValue]. *)
Definition endValueWith (v : value) (c : ascii) (stack : list frame) : opcode :=
  match stack with
  | [] => scanEnd v
  | inArray elems :: rest => endValue c (CArray (v :: elems)) rest
  | inObject members key :: rest =>
    endValue c (CObject ((key, v) :: members)) rest
  end.

Definition numberStep (st : numState) (lit : string) (c : ascii)
    (stack : list frame) : opcode :=
  let b := code c in
  let lit' := (lit ++ str1 c)%string in
  let finish := endValueWith (JNumber lit) c stack in
  let after0 :=
    if b =? 46 then goto (stateNumber sDot lit') stack
    else if (b =? 101) || (b =? 69) then goto (stateNumber sE lit') stack
    else finish in
  let eSign :=
    if isDigit b then goto (stateNumber sE0 lit') stack
    else scanError (syntaxMsg b "in exponent of numeric literal") in
  match st with
  | sNeg =>
    if b =? 48 then goto (stateNumber s0 lit') stack
    else if between 49 b 57 then goto (stateNumber s1 lit') stack
    else scanError (syntaxMsg b "in numeric literal")
  | s1 => if isDigit b then goto (stateNumber s1 lit') stack else after0
  | s0 => after0
  | sDot =>
    if isDigit b then goto (stateNumber sDot0 lit') stack
    else scanError (syntaxMsg b "after decimal point in numeric literal")
  | sDot0 =>
    if isDigit b then goto (stateNumber sDot0 lit') stack
    else if (b =? 101) || (b =? 69) then goto (stateNumber sE lit') stack
    else finish
  | sE =>
    if (b =? 43) || (b =? 45) then goto (stateNumber sESign lit') stack
    else eSign
  | sESign => eSign
  | sE0 => if isDigit b then goto (stateNumber sE0 lit') stack else finish
  end.

(** The byte an escape letter stands for. *)
Definition escapeOf (b : Z) : option ascii :=
  if (b =? 34) || (b =? 92) || (b =? 47) then Some (chr b)
  else if b =? 98 then Some (chr 8)
  else if b =? 102 then Some (chr 12)
  else if b =? 110 then Some (chr 10)
  else if b =? 114 then Some (chr 13)
  else if b =? 116 then Some (chr 9)
  else None.

Definition scanStep (s : scanner) (c : ascii) : opcode :=
  let b := code c in
  let stack := parseState s in
  match step s with
  | stateBeginValue => beginValue c stack
  | stateBeginValueOrEmpty =>
    if isSpace b then goto stateBeginValueOrEmpty stack
    else if b =? 93 then deliver true (JArray []) stack
    else beginValue c (inArray [] :: stack)
  | stateBeginStringOrEmpty =>
    if isSpace b then goto stateBeginStringOrEmpty stack
    else if b =? 125 then deliver true (JObject []) stack
    else beginString c [] stack
  | stateBeginString members => beginString c members stack
  | stateAfterKey members key =>
    if isSpace b then goto (stateAfterKey members key) stack
    else if b =? 58 then goto stateBeginValue (inObject members key :: stack)
    else scanError (syntaxMsg b "after object key")
  | stateEndValue k => endValue c k stack
  | stateEndTop v => scanEnd v
  | stateInString ctx acc =>
    if b =? 34 then
      match ctx with
      | asKey members => goto (stateAfterKey members (unquote 0 (rev acc))) stack
      | asValue => deliver false (JString (unquote 0 (rev acc))) stack
      end
    else if b =? 92 then goto (stateInStringEsc ctx acc) stack
    else if b <? 32 then scanError (syntaxMsg b "in string literal")
    else goto (stateInString ctx (Raw c :: acc)) stack
  | stateInStringEsc ctx acc =>
    match escapeOf b with
    | Some e => goto (stateInString ctx (Esc e :: acc)) stack
    | None =>
      if b =? 117 then goto (stateInStringEscU ctx 0 0 acc) stack
      else scanError (syntaxMsg b "in string escape code")
    end
  | stateInStringEscU ctx n r acc =>
    match hexValue b with
    | Some d =>
      match n with
      | 3%nat => goto (stateInString ctx (EscU (r * 16 + d) :: acc)) stack
      | _ => goto (stateInStringEscU ctx (S n) (r * 16 + d) acc) stack
      end
    | None => scanError (syntaxMsg b "in \u hexadecimal character escape")
    end
  | stateNumber st lit => numberStep st lit c stack
  | stateLiteral name todo v =>
    match todo with
    | String e rest =>
      if Ascii.eqb c e then
        match rest with
        | EmptyString => deliver false v stack
        | _ => goto (stateLiteral name rest v) stack
        end
      else scanError (syntaxMsg b ("in literal " ++ name ++ " (expecting '"
                                     ++ str1 e ++ "')"))
    | EmptyString => deliver false v stack
    end
  end.

(** *** The decoder ([Decoder.Decode] into a struct of string fields) *)

(** An [io.Reader] read to its end: the bytes it gave and, when the stream
    did not end cleanly, the error that ended it. *)
Record reader : Type := mkReader {
  data : string;
  readErr : option error
}.

Inductive scanned : Type :=
| scanDone (v : value)
| scanFailed (msg : string)
| scanPending (s : scanner).

Fixpoint scanBytes (s : scanner) (buf : string) : scanned :=
  match buf with
  | EmptyString => scanPending s
  | String c t =>
    match scanStep s c with
    | scanContinue s' => scanBytes s' t
    | scanEnd v => scanDone v
    | scanError msg => scanFailed msg
    end
  end.

(** [Decoder.readValue]: the first value of the stream.  What follows it is
    not looked at.  When the bytes end before the value does, the error of
    the reader is returned; at a clean end of stream the scanner is given a
    space, which completes a number or literal at top level. *)
Definition readValue (r : reader) : value + error :=
  match scanBytes (mkScanner stateBeginValue []) (data r) with
  | scanDone v => inl v
  | scanFailed msg => inr (json_SyntaxError msg)
  | scanPending s =>
    match readErr r with
    | Some e => inr e
    | None =>
      match scanStep s " "%char with
      | scanEnd v => inl v
      | _ => inr (if nonSpace (data r) then io_ErrUnexpectedEOF else io_EOF)
      end
    end
  end.

(** Matching of object keys against field names, as [foldFunc] selects it
    from the name: [simpleLetterEqualFold] for a name of letters without
    [k] and [s], [asciiEqualFold] for an ASCII name with other bytes,
    [equalFoldRight] for a name with [k] or [s]. *)
Definition caseMask : Z := 223.

Fixpoint simpleLetterEqualFold (s t : string) : bool :=
  match s, t with
  | EmptyString, EmptyString => true
  | String a s', String b t' =>
    (Z.land (code a) caseMask =? Z.land (code b) caseMask)
    && simpleLetterEqualFold s' t'
  | _, _ => false
  end.

Fixpoint asciiEqualFold (s t : string) : bool :=
  match s, t with
  | EmptyString, EmptyString => true
  | String a s', String b t' =>
    let sb := code a in
    let tb := code b in
    (if sb =? tb then true
     else if between 97 sb 122 || between 65 sb 90
          then Z.land sb caseMask =? Z.land tb caseMask
          else false)
    && asciiEqualFold s' t'
  | _, _ => false
  end.

Definition kelvin : Z := 8490.
Definition smallLongEss : Z := 383.

Fixpoint equalFoldRight (s t : string) {struct s} : bool :=
  match s with
  | EmptyString => match t with EmptyString => true | _ => false end
  | String a s' =>
    match t with
    | EmptyString => false
    | String b t' =>
      let sb := code a in
      let tb := code b in
      if tb <? utf8.RuneSelf then
        (if sb =? tb then true
         else
           let sbUpper := Z.land sb caseMask in
           between 65 sbUpper 90 && (sbUpper =? Z.land tb caseMask))
        && equalFoldRight s' t'
      else
        let (tr, size) := utf8.DecodeRune t in
        if (sb =? 115) || (sb =? 83)
        then (tr =? smallLongEss) && equalFoldRight s' (dropBytes size t)
        else if (sb =? 107) || (sb =? 75)
        then (tr =? kelvin) && equalFoldRight s' (dropBytes size t)
        else false
    end
  end.

(** A field of Go type [string] of the struct type [T]. *)
Record field (T : Type) : Type := mkField {
  name : string;
  equalFold : string -> string -> bool;
  set : string -> T -> T
}.
Arguments mkField {T}.
Arguments name {T}.
Arguments equalFold {T}.
Arguments set {T}.

(** The field a key selects: the one of that very name, else the first
    whose name matches it under folding. *)
Definition findField {T} (fields : list (field T)) (key : string)
    : option (field T) :=
  match find (fun f => String.eqb (name f) key) fields with
  | Some f => Some f
  | None => find (fun f => equalFold f (name f) key) fields
  end.

(** [decodeState.saveError] keeps the first error. *)
Definition saveError (saved : option error) (e : error) : option error :=
  match saved with
  | Some _ => saved
  | None => Some e
  end.

(** [decodeState.object] on a struct: the members are taken in order; a
    member of an unknown key is skipped, a string is stored, [null] leaves
    the field as it is, any other value is a type error that is saved while
    decoding goes on. *)
Fixpoint object {T} (Struct : string) (fields : list (field T))
    (members : list (string * value)) (v : T) (savedError : option error)
    : T * option error :=
  match members with
  | [] => (v, savedError)
  | (key, val) :: rest =>
    match findField fields key with
    | None => object Struct fields rest v savedError
    | Some f =>
      match val with
      | JString s => object Struct fields rest (set f s v) savedError
      | JNull => object Struct fields rest v savedError
      | _ =>
        object Struct fields rest v
          (saveError savedError
             (json_UnmarshalTypeError (kind val) "string" Struct (name f)))
      end
    end
  end.

(** [decodeState.unmarshal] into a struct of type [goType]. *)
Definition unmarshal {T} (goType Struct : string) (fields : list (field T))
    (v : value) (dst : T) : T * option error :=
  match v with
  | JObject members => object Struct fields members dst None
  | JNull => (dst, None)
  | _ => (dst, Some (json_UnmarshalTypeError (kind v) goType "" ""))
  end.

Definition Decode {T} (goType Struct : string) (fields : list (field T))
    (r : reader) (dst : T) : T * option error :=
  match readValue r with
  | inr e => (dst, Some e)
  | inl v => unmarshal goType Struct fields v dst
  end.

End json.

(** ** net/http: the client side *)

Definition http_StatusOK : Z := 200.
Definition http_StatusBadRequest : Z := 400.
Definition http_StatusInternalServerError : Z := 500.

Definition time_Second : Z := 1000000000.

(** [http.Client], of which the program sets the timeout only. *)
Record http_Client : Type := mkClient {
  Timeout : Z
}.

(** A call of [Client.Post]: the client, the URL, the content type and the
    bytes of the body. *)
Record http_Post : Type := mkPost {
  post_client : http_Client;
  post_url : string;
  post_contentType : string;
  post_body : string
}.

Record http_Response : Type := mkResponse {
  StatusCode : Z;
  Body : json.reader
}.

(** The upstream server and the network between: what [Client.Post] returns
    for a call, a response or the error of the transport. *)
Definition Upstream : Type := http_Post -> http_Response + error.

(** [ioutil.ReadAll]: the bytes read and the error that stopped the
    reading, if any. *)
Definition ioutil_ReadAll (r : json.reader) : string * option error :=
  (json.data r, json.readErr r).

(** ** The types of main.go *)

Record OllamaRequest : Type := mkOllamaRequest {
  OllamaRequest_Model : string;
  OllamaRequest_Prompt : string
}.

Record OllamaResponse : Type := mkOllamaResponse {
  OllamaResponse_Model : string;
  OllamaResponse_CreatedAt : string;
  OllamaResponse_Response : string
}.

Record PromptRequest : Type := mkPromptRequest {
  PromptRequest_Prompt : string;
  PromptRequest_Model : string
}.

Record PromptResponse : Type := mkPromptResponse {
  PromptResponse_Response : string;
  PromptResponse_Model : string;
  PromptResponse_Time : string
}.

Record LLMService : Type := mkLLMService {
  ollamaURL : string;
  httpClient : http_Client;
  defaultModel : string
}.

Definition NewLLMService (ollamaURL defaultModel : string) : LLMService :=
  {| ollamaURL := ollamaURL;
     httpClient := {| Timeout := 60 * time_Second |};
     defaultModel := defaultModel |}.

(** The struct tags, as [encoding/json] reads them. *)
Definition Marshal_OllamaRequest (r : OllamaRequest) : string * option error :=
  json.Marshal [("model", OllamaRequest_Model r);
                ("prompt", OllamaRequest_Prompt r)].

Definition Marshal_PromptResponse (r : PromptResponse) : string * option error :=
  json.Marshal [("response", PromptResponse_Response r);
                ("model", PromptResponse_Model r);
                ("time", PromptResponse_Time r)].

Definition OllamaResponse_fields : list (json.field OllamaResponse) :=
  [ json.mkField "model" json.simpleLetterEqualFold
      (fun s r => mkOllamaResponse s (OllamaResponse_CreatedAt r)
                    (OllamaResponse_Response r));
    json.mkField "created_at" json.asciiEqualFold
      (fun s r => mkOllamaResponse (OllamaResponse_Model r) s
                    (OllamaResponse_Response r));
    json.mkField "response" json.equalFoldRight
      (fun s r => mkOllamaResponse (OllamaResponse_Model r)
                    (OllamaResponse_CreatedAt r) s) ].

Definition PromptRequest_fields : list (json.field PromptRequest) :=
  [ json.mkField "prompt" json.simpleLetterEqualFold
      (fun s r => mkPromptRequest s (PromptRequest_Model r));
    json.mkField "model" json.simpleLetterEqualFold
      (fun s r => mkPromptRequest (PromptRequest_Prompt r) s) ].

(** [json.NewDecoder(body).Decode(&v)] for a zero [v] of each type. *)
Definition Decode_OllamaResponse (body : json.reader)
    : OllamaResponse * option error :=
  json.Decode "main.OllamaResponse" "OllamaResponse" OllamaResponse_fields
    body (mkOllamaResponse "" "" "").

Definition Decode_PromptRequest (body : json.reader)
    : PromptRequest * option error :=
  json.Decode "main.PromptRequest" "PromptRequest" PromptRequest_fields
    body (mkPromptRequest "" "").

(** ** The state the program runs in *)

(** The service object [llmService] points to, and the calls made to the
    upstream so far, oldest first. *)
Record World : Type := mkWorld {
  service : LLMService;
  posts : list http_Post
}.

Definition M (S A : Type) : Type := S -> A * S.

Definition ret {S A} (a : A) : M S A := fun s => (a, s).

Definition bind {S A B} (m : M S A) (k : A -> M S B) : M S B :=
  fun s => let (a, s') := m s in k a s'.

Notation "x <- m ;; k" := (bind m (fun x => k))
  (at level 61, m at next level, right associativity).
Notation "m ;;; k" := (bind m (fun _ => k))
  (at level 61, right associativity).

Definition gets {S A} (f : S -> A) : M S A := fun s => (f s, s).
Definition modify {S} (f : S -> S) : M S unit := fun s => (tt, f s).

Section Relay.

(** The upstream the service talks to. *)
Variable upstream : Upstream.

(** [client.Post(url, contentType, body)]: one call to the upstream. *)
Definition Post (client : http_Client) (url contentType body : string)
    : M World (http_Response + error) :=
  fun w =>
    let p := mkPost client url contentType body in
    (upstream p, mkWorld (service w) (posts w ++ [p])).

(** ** GetCompletion *)

Definition GetCompletion (prompt model : string)
    : M World (string * option error) :=
  s <- gets service ;;
  let model := if (model =? "")%string then defaultModel s else model in
  let (reqBody, err) :=
    Marshal_OllamaRequest
      {| OllamaRequest_Model := model; OllamaRequest_Prompt := prompt |} in
  match err with
  | Some err => ret ("", Some (Errorf_w "failed to marshal request: " err))
  | None =>
    r <- Post (httpClient s) (ollamaURL s ++ "/api/generate")
           "application/json" reqBody ;;
    match r with
    | inr err => ret ("", Some (Errorf_w "ollama request failed: " err))
    | inl resp =>
      if negb (StatusCode resp =? http_StatusOK) then
        let (bodyBytes, _) := ioutil_ReadAll (Body resp) in
        ret ("", Some (errorString
                         ("ollama returned status "
                            ++ strconv.Itoa (StatusCode resp) ++ ": "
                            ++ bodyBytes)))
      else
        let (ollamaResp, err) := Decode_OllamaResponse (Body resp) in
        match err with
        | Some err =>
          ret ("", Some (Errorf_w "failed to decode ollama response: " err))
        | None => ret (OllamaResponse_Response ollamaResp, None)
        end
    end
  end.

End Relay.

(** ** gin: response writer, context and engine *)

Module gin.

Definition Header : Type := list (string * string).

(** [Header.Set] on a key in canonical form. *)
Fixpoint Header_Set (h : Header) (k v : string) : Header :=
  match h with
  | [] => [(k, v)]
  | (k', v') :: t =>
    if String.eqb k' k then (k, v) :: t else (k', v') :: Header_Set t k v
  end.

Fixpoint Header_Get (h : Header) (k : string) : option string :=
  match h with
  | [] => None
  | (k', v) :: t => if String.eqb k' k then Some v else Header_Get t k
  end.

(** The response writer: the header map the handlers write to, the status
    set so far, the status line and header sent (once they are), and the
    bytes of the body written. *)
Record responseWriter : Type := mkWriter {
  header : Header;
  status : Z;
  sent : option (Z * Header);
  body : string
}.

Record Request : Type := mkRequest {
  Method : string;
  Path : string;
  RequestBody : json.reader
}.

(** A request being served: the gin context (request, writer, index of the
    running handler) and the world of the program. *)
Record Context : Type := mkContext {
  request : Request;
  Writer : responseWriter;
  index : Z;
  world : World
}.

Definition abortIndex : Z := 63.

Definition setWriter (f : responseWriter -> responseWriter) : M Context unit :=
  modify (fun c => mkContext (request c) (f (Writer c)) (index c) (world c)).

Definition setIndex (f : Z -> Z) : M Context unit :=
  modify (fun c => mkContext (request c) (Writer c) (f (index c)) (world c)).

(** Running a computation of the program on the world of the context. *)
Definition onWorld {A} (m : M World A) : M Context A :=
  fun c =>
    let (a, w) := m (world c) in
    (a, mkContext (request c) (Writer c) (index c) w).

Definition Written (w : responseWriter) : bool :=
  match sent w with
  | Some _ => true
  | None => false
  end.

Definition Writer_Header_Set (k v : string) : M Context unit :=
  setWriter (fun w => mkWriter (Header_Set (header w) k v) (status w)
                        (sent w) (body w)).

(** [responseWriter.WriteHeader]. *)
Definition Status (code : Z) : M Context unit :=
  setWriter (fun w =>
    if (0 <? code) && negb (status w =? code) && negb (Written w)
    then mkWriter (header w) code (sent w) (body w)
    else w).

Definition WriteHeaderNow : M Context unit :=
  setWriter (fun w =>
    if Written w then w
    else mkWriter (header w) (status w) (Some (status w, header w)) (body w)).

Definition Write (bytes : string) : M Context unit :=
  WriteHeaderNow ;;;
  setWriter (fun w => mkWriter (header w) (status w) (sent w)
                        (body w ++ bytes)).

Definition Abort : M Context unit := setIndex (fun _ => abortIndex).

Definition AbortWithStatus (code : Z) : M Context unit :=
  Status code ;;; WriteHeaderNow ;;; Abort.

Definition bodyAllowedForStatus (code : Z) : bool :=
  negb (between 100 code 199 || (code =? 204) || (code =? 304)).

Definition writeContentType (value : string) : M Context unit :=
  setWriter (fun w =>
    match Header_Get (header w) "Content-Type" with
    | Some _ => w
    | None => mkWriter (Header_Set (header w) "Content-Type" value)
                (status w) (sent w) (body w)
    end).

Definition jsonContentType : string := "application/json; charset=utf-8".

(** [c.JSON(code, obj)], given what [json.Marshal(obj)] returns. *)
Definition JSON (code : Z) (marshalled : string * option error)
    : M Context unit :=
  Status code ;;;
  if negb (bodyAllowedForStatus code)
  then writeContentType jsonContentType ;;; WriteHeaderNow
  else
    writeContentType jsonContentType ;;;
    match marshalled with
    | (bytes, None) => Write bytes
    | (_, Some _) => Abort
    end.

(** [gin.H] with one string entry. *)
Definition H (k v : string) : string * option error := json.Marshal [(k, v)].

(** A handler, given what [c.Next()] does where it is called. *)
Definition HandlerFunc : Type := M Context unit -> M Context unit.

(** The loop of [Context.Next], [for c.index < len(handlers)], on the
    handlers from position [i] on: the handler at the position of the index
    is run, and the index moves on after it returns; a handler that the
    index has passed (the rest was run by a nested [Next], or the context
    was aborted) is not run. *)
Fixpoint handlersFrom (i : Z) (hs : list HandlerFunc) : M Context unit :=
  match hs with
  | [] => ret tt
  | h :: rest =>
    idx <- gets index ;;
    if idx =? i then
      h (setIndex Z.succ ;;; handlersFrom (i + 1) rest) ;;;
      setIndex Z.succ ;;;
      handlersFrom (i + 1) rest
    else handlersFrom (i + 1) rest
  end.

Definition Next (hs : list HandlerFunc) : M Context unit :=
  setIndex Z.succ ;;; handlersFrom 0 hs.

(** [Logger] and [Recovery], which [gin.Default] installs: both call
    [c.Next()]; the log line and the recovery of a panic are not part of the
    model. *)
Definition Logger : HandlerFunc := fun next => next.
Definition Recovery : HandlerFunc := fun next => next.

(** [node.getValue] on a tree that holds one static route [prefix]:
    whether the route matches, and else whether the path differs from it by
    a trailing slash. *)
Definition getValue (prefix path : string) : bool * bool :=
  if (String.length prefix <? String.length path)%nat
     && String.prefix prefix path
  then (false,
        String.eqb
          (substring (String.length prefix)
             (String.length path - String.length prefix) path) "/")
  else if String.eqb path prefix then (true, false)
  else (false,
        String.eqb path "/"
        || ((String.length prefix =? String.length path + 1)%nat
            && String.eqb (substring (String.length path) 1 prefix) "/"
            && String.eqb path (substring 0 (String.length prefix - 1) prefix))).

(** What [net/http] sends for the request. *)
Record Response : Type := mkResponse {
  resp_status : Z;
  resp_header : Header;
  resp_body : string
}.

(** A request is served through a chain of handlers, or it is redirected by
    [redirectTrailingSlash], through [http.Redirect], before any handler
    runs. *)
Inductive Outcome : Type :=
| Served (r : Response)
| Redirected (code : Z).

Definition responseOf (w : responseWriter) : Response :=
  match sent w with
  | Some (code, h) => mkResponse code h (body w)
  | None => mkResponse 200 (header w) (body w)
  end.

Definition default404Body : string := "404 page not found".

(** [serveError(c, 404, default404Body)] with the chain [allNoRoute]. *)
Definition serveError (code : Z) (defaultMessage : string)
    (handlers : list HandlerFunc) : M Context unit :=
  setWriter (fun w => mkWriter (header w) code (sent w) (body w)) ;;;
  Next handlers ;;;
  w <- gets Writer ;;
  if Written w then ret tt
  else if status w =? code then
    setWriter (fun w => mkWriter (Header_Set (header w) "Content-Type"
                                    "text/plain")
                          (status w) (sent w) (body w)) ;;;
    Write defaultMessage
  else WriteHeaderNow.

(** An engine: the method trees, each with one static route and its chain
    of handlers, and the chain for unmatched requests.
    [RedirectTrailingSlash] is on, [RedirectFixedPath] and
    [HandleMethodNotAllowed] are off, as [gin.New] sets them. *)
Record Engine : Type := mkEngine {
  trees : list (string * (string * list HandlerFunc));
  allNoRoute : list HandlerFunc
}.

Fixpoint findTree (ts : list (string * (string * list HandlerFunc)))
    (method : string) : option (string * list HandlerFunc) :=
  match ts with
  | [] => None
  | (m, t) :: rest => if String.eqb m method then Some t else findTree rest method
  end.

Definition newContext (req : Request) (w : World) : Context :=
  mkContext req (mkWriter [] 200 None "") (-1) w.

(** [Engine.ServeHTTP], from the reset of the context to the end of
    [handleHTTPRequest]. *)
Definition ServeHTTP (engine : Engine) (req : Request) (w : World)
    : Outcome * World :=
  let c := newContext req w in
  let notFound :=
    let (_, c') := serveError 404 default404Body (allNoRoute engine) c in
    (Served (responseOf (Writer c')), world c') in
  match findTree (trees engine) (Method req) with
  | None => notFound
  | Some (route, handlers) =>
    let (found, tsr) := getValue route (Path req) in
    if found then
      let (_, c') := (Next handlers ;;; WriteHeaderNow) c in
      (Served (responseOf (Writer c')), world c')
    else if negb (String.eqb (Method req) "CONNECT")
            && negb (String.eqb (Path req) "/") && tsr
    then (Redirected (if String.eqb (Method req) "GET" then 301 else 307), w)
    else notFound
  end.

End gin.

(** ** main *)

Section Main.

Variable upstream : Upstream.

(** The text of [time.Since(startTime)] for the request being served. *)
Variable elapsed : string.

(** The CORS middleware. *)
Definition corsMiddleware : gin.HandlerFunc := fun Next =>
  gin.Writer_Header_Set "Access-Control-Allow-Origin" "*" ;;;
  gin.Writer_Header_Set "Access-Control-Allow-Methods" "POST, GET, OPTIONS" ;;;
  gin.Writer_Header_Set "Access-Control-Allow-Headers"
    "Content-Type, Content-Length, Accept-Encoding, Authorization" ;;;
  req <- gets gin.request ;;
  if (gin.Method req =? "OPTIONS")%string then gin.AbortWithStatus 204
  else Next.

(** The [binding:"required"] tag of [PromptRequest.Prompt]. *)
Definition validate (req : PromptRequest) : option error :=
  if (PromptRequest_Prompt req =? "")%string
  then Some (validator_ValidationErrors "PromptRequest.Prompt" "Prompt"
               "required")
  else None.

(** [c.ShouldBindJSON(&req)]: decoding, then validation. *)
Definition ShouldBindJSON (body : json.reader) : PromptRequest * option error :=
  let (req, err) := Decode_PromptRequest body in
  match err with
  | Some err => (req, Some err)
  | None => (req, validate req)
  end.

(** The handler of [POST /api/complete]. *)
Definition completeHandler : gin.HandlerFunc := fun _ =>
  r <- gets gin.request ;;
  let (req, err) := ShouldBindJSON (gin.RequestBody r) in
  match err with
  | Some err => gin.JSON http_StatusBadRequest (gin.H "error" (Error err))
  | None =>
    res <- gin.onWorld (GetCompletion upstream (PromptRequest_Prompt req)
                          (PromptRequest_Model req)) ;;
    let (response, err) := res in
    match err with
    | Some err =>
      gin.JSON http_StatusInternalServerError (gin.H "error" (Error err))
    | None =>
      gin.JSON http_StatusOK
        (Marshal_PromptResponse
           {| PromptResponse_Response := response;
              PromptResponse_Model := PromptRequest_Model req;
              PromptResponse_Time := elapsed |})
    end
  end.

(** The handler of [GET /health]. *)
Definition healthHandler : gin.HandlerFunc := fun _ =>
  gin.JSON http_StatusOK (gin.H "status" "healthy").

(** The router [main] builds: [gin.Default()], the CORS middleware, then
    the two routes. *)
Definition middleware : list gin.HandlerFunc :=
  [gin.Logger; gin.Recovery; corsMiddleware].

Definition router : gin.Engine :=
  {| gin.trees :=
       [("POST", ("/api/complete", (middleware ++ [completeHandler])%list));
        ("GET", ("/health", (middleware ++ [healthHandler])%list))];
     gin.allNoRoute := middleware |}.

Definition serve (req : gin.Request) (w : World) : gin.Outcome * World :=
  gin.ServeHTTP router req w.

End Main.

(** ** Descriptions used by the statements *)

(** The model sent upstream: the supplied one, or the default of the service
    when none is supplied. *)
Definition effectiveModel (s : LLMService) (model : string) : string :=
  if (model =? "")%string then defaultModel s else model.

(** The call [GetCompletion] makes to the upstream. *)
Definition upstreamCall (s : LLMService) (prompt model : string) : http_Post :=
  {| post_client := httpClient s;
     post_url := ollamaURL s ++ "/api/generate";
     post_contentType := "application/json";
     post_body :=
       fst (Marshal_OllamaRequest
              {| OllamaRequest_Model := effectiveModel s model;
                 OllamaRequest_Prompt := prompt |}) |}.

(** The name of the field of [OllamaResponse], resp. [PromptRequest], that
    the decoder selects for a key. *)
Definition OllamaResponse_fieldOf (key : string) : option string :=
  option_map json.name (json.findField OllamaResponse_fields key).

Definition PromptRequest_fieldOf (key : string) : option string :=
  option_map json.name (json.findField PromptRequest_fields key).

(** A JSON string or [null]: what a string field accepts. *)
Definition stringOrNull (v : json.value) : Prop :=
  (exists s, v = json.JString s) \/ v = json.JNull.

(** No member bound to the field [fname] holds a string. *)
Definition noString (fieldOf : string -> option string) (fname : string)
    (members : list (string * json.value)) : Prop :=
  forall key v s, In (key, v) members ->
    fieldOf key = Some fname -> v <> json.JString s.

(** [s] is the last string a member binds to the field [fname]. *)
Definition lastString (fieldOf : string -> option string) (fname : string)
    (members : list (string * json.value)) (s : string) : Prop :=
  exists pre key post,
    members = (pre ++ (key, json.JString s) :: post)%list
    /\ fieldOf key = Some fname
    /\ noString fieldOf fname post.

(** The headers the CORS middleware sets. *)
Definition corsHeaders : gin.Header :=
  [("Access-Control-Allow-Origin", "*");
   ("Access-Control-Allow-Methods", "POST, GET, OPTIONS");
   ("Access-Control-Allow-Headers",
    "Content-Type, Content-Length, Accept-Encoding, Authorization")].

Definition jsonHeaders : gin.Header :=
  (corsHeaders ++ [("Content-Type", gin.jsonContentType)])%list.

(** Every CORS header is in the response, with the value the middleware
    gives it. *)
Definition carriesCors (h : gin.Header) : Prop :=
  forall k v, In (k, v) corsHeaders -> gin.Header_Get h k = Some v.

(** ** Sample inputs *)

Module Sample.

(** JSON texts are written with single quotes for the double ones. *)
Fixpoint q (s : string) : string :=
  match s with
  | EmptyString => EmptyString
  | String c t => String (if Ascii.eqb c "'"%char then chr 34 else c) (q t)
  end.

Definition svc : LLMService := NewLLMService "http://localhost:11434" "llama2".

Definition world0 : World := mkWorld svc [].

(** A world in which the upstream was called before. *)
Definition world1 : World :=
  mkWorld svc [upstreamCall svc "earlier" "mistral"].

(** An upstream that answers every call with this status and body. *)
Definition replies (code : Z) (body : string) : Upstream :=
  fun _ => inl (mkResponse code (json.mkReader body None)).

(** An upstream that cannot be reached. *)
Definition unreachable : Upstream :=
  fun _ => inr (errorString "dial tcp 127.0.0.1:11434: connect: connection refused").

Definition request (method path body : string) : gin.Request :=
  gin.mkRequest method path (json.mkReader body None).

End Sample.

(** ** main: the configuration *)

(** What [main] settles before it serves: the service it builds from the
    environment, the two lines it logs and the address it gives to
    [router.Run].  [Getenv] is [os.Getenv], which gives the empty string for
    a variable that is not set. *)
Record Setup : Type := mkSetup {
  setup_service : LLMService;
  setup_log : list string;
  setup_addr : string
}.

Definition main_setup (Getenv : string -> string) : Setup :=
  let ollamaURL := Getenv "OLLAMA_URL" in
  let ollamaURL :=
    if (ollamaURL =? "")%string then "http://localhost:11434" else ollamaURL in
  let defaultModel := Getenv "DEFAULT_MODEL" in
  let defaultModel :=
    if (defaultModel =? "")%string then "llama2" else defaultModel in
  let port := Getenv "PORT" in
  let port := if (port =? "")%string then "8080" else port in
  {| setup_service := NewLLMService ollamaURL defaultModel;
     setup_log :=
       ["Starting server on port " ++ port;
        "Using Ollama at " ++ ollamaURL ++ " with default model "
          ++ defaultModel];
     setup_addr := ":" ++ port |}.

(** ** What a JSON reader makes of an encoded string *)

(** The chunks the scanner reads in the bytes [json.encodeBytes] writes for
    a string: one per byte written as it is, one per escape. *)
Definition escapeChunk (c : ascii) : json.chunk :=
  let b := code c in
  if (b =? 92) || (b =? 34) || (b =? 10) || (b =? 13) || (b =? 9)
  then json.Esc c
  else json.EscU b.

Fixpoint chunksOf (copy drop : nat) (s : string) {struct s}
    : list json.chunk :=
  match s with
  | EmptyString => []
  | String c t =>
    match copy, drop with
    | S k, _ => json.Raw c :: chunksOf k drop t
    | O, S k => chunksOf O k t
    | O, O =>
      let b := code c in
      if b <? utf8.RuneSelf then
        if json.htmlSafeSet b then json.Raw c :: chunksOf 0 0 t
        else escapeChunk c :: chunksOf 0 0 t
      else
        let (r, size) := utf8.DecodeRune s in
        if (r =? utf8.RuneError) && (size =? 1)%nat
        then json.EscU utf8.RuneError :: chunksOf 0 0 t
        else if (r =? 8232) || (r =? 8233)
        then json.EscU r :: chunksOf 0 (size - 1) t
        else json.Raw c :: chunksOf (size - 1) 0 t
    end
  end.

(** The first [n] bytes of [s], as far as there are, are not ASCII. *)
Fixpoint highPrefix (n : nat) (s : string) : bool :=
  match n, s with
  | S k, String c t => (utf8.RuneSelf <=? code c) && highPrefix k t
  | _, _ => true
  end.

(** Every byte of [s] is ASCII. *)
Fixpoint isASCII (s : string) : bool :=
  match s with
  | EmptyString => true
  | String c t => (code c <? utf8.RuneSelf) && isASCII t
  end.

(** [utf8.ValidString]: every rune of [s] decodes; [skip] counts the
    continuation bytes of the rune already checked. *)
Fixpoint validFrom (skip : nat) (s : string) {struct s} : bool :=
  match s with
  | EmptyString => true
  | String c t =>
    match skip with
    | S k => validFrom k t
    | O =>
      let (r, size) := utf8.DecodeRune s in
      negb ((r =? utf8.RuneError) && (size =? 1)%nat)
      && validFrom (size - 1) t
    end
  end.

Definition ValidString (s : string) : bool := validFrom 0 s.

(** The shapes of a valid encoding of two, three and four bytes, as the
    ranges [utf8.DecodeRune] accepts. *)
Inductive encoded (c : ascii) (t : string) (r : Z) (size : nat) : Prop :=
| encoded2 c1 t1 :
    t = String c1 t1 -> size = 2%nat ->
    194 <= code c <= 223 -> 128 <= code c1 <= 191 ->
    r = (code c mod 32) * 64 + code c1 mod 64 ->
    encoded c t r size
| encoded3 c1 c2 t2 :
    t = String c1 (String c2 t2) -> size = 3%nat ->
    224 <= code c <= 239 -> 128 <= code c1 <= 191 ->
    (code c = 224 -> 160 <= code c1) -> (code c = 237 -> code c1 <= 159) ->
    128 <= code c2 <= 191 ->
    r = (code c mod 16) * 4096 + (code c1 mod 64) * 64 + code c2 mod 64 ->
    encoded c t r size
| encoded4 c1 c2 c3 t3 :
    t = String c1 (String c2 (String c3 t3)) -> size = 4%nat ->
    240 <= code c <= 244 -> 128 <= code c1 <= 191 ->
    (code c = 240 -> 144 <= code c1) -> (code c = 244 -> code c1 <= 143) ->
    128 <= code c2 <= 191 -> 128 <= code c3 <= 191 ->
    r = (code c mod 8) * 262144 + (code c1 mod 64) * 4096
        + (code c2 mod 64) * 64 + code c3 mod 64 ->
    encoded c t r size.

(** What the decoder reads back from the encoding of a string, and from the
    members of a marshalled object. *)
Definition readBack (s : string) : string := json.unquote 0 (chunksOf 0 0 s).

Definition decodedMembers (fields : list (string * string))
    : list (string * json.value) :=
  map (fun kv => (readBack (fst kv), json.JString (readBack (snd kv)))) fields.

(** The answer of the router to a request no route matches. *)
Definition notFoundResponse : gin.Response :=
  gin.mkResponse 404 (corsHeaders ++ [("Content-Type", "text/plain")])%list
    gin.default404Body.

(** * Properties *)

(** ** GetCompletion *)

Section RelayFacts.

Variable upstream : Upstream.

(** [GetCompletion] is one call to the upstream followed by a case analysis
    of its answer; the service is left as it was. *)
Lemma GetCompletion_unfold (prompt model : string) (w : World) :
  GetCompletion upstream prompt model w =
  (match upstream (upstreamCall (service w) prompt model) with
   | inr err => ("", Some (Errorf_w "ollama request failed: " err))
   | inl resp =>
     if negb (StatusCode resp =? http_StatusOK) then
       ("", Some (errorString
                    ("ollama returned status "
                       ++ strconv.Itoa (StatusCode resp) ++ ": "
                       ++ json.data (Body resp))))
     else
       match snd (Decode_OllamaResponse (Body resp)) with
       | Some err =>
         ("", Some (Errorf_w "failed to decode ollama response: " err))
       | None =>
         (OllamaResponse_Response (fst (Decode_OllamaResponse (Body resp))),
          None)
       end
   end,
   mkWorld (service w)
     (posts w ++ [upstreamCall (service w) prompt model])).
Proof.
  unfold GetCompletion, bind, gets, Post, ret, upstreamCall, effectiveModel.
  unfold Marshal_OllamaRequest, json.Marshal. cbn [fst snd].
  destruct (upstream _) as [resp | err]; [ | reflexivity ].
  destruct (negb (StatusCode resp =? http_StatusOK)); [ reflexivity | ].
  destruct (Decode_OllamaResponse (Body resp)) as [r [e | ]]; reflexivity.
Qed.

End RelayFacts.

(** ** Decoding into the structs of main.go *)

Section DecodeFacts.

Context {T : Type} (Struct : string) (fields : list (json.field T)).

Lemma object_app (pre post : list (string * json.value)) (v : T)
    (saved : option error) :
  json.object Struct fields (pre ++ post) v saved =
  json.object Struct fields post
    (fst (json.object Struct fields pre v saved))
    (snd (json.object Struct fields pre v saved)).
Proof.
  revert v saved. induction pre as [ | [key val] pre IH]; intros v saved.
  - reflexivity.
  - cbn [app json.object].
    destruct (json.findField fields key) as [f | ]; [ | apply IH ].
    destruct val; apply IH.
Qed.

(** Members that hold strings or [null] wherever they select a field raise
    no type error. *)
Lemma object_no_error (members : list (string * json.value)) :
  (forall key v, In (key, v) members ->
     json.findField fields key <> None -> stringOrNull v) ->
  forall v saved,
    snd (json.object Struct fields members v saved) = saved.
Proof.
  induction members as [ | [key val] members IH]; intros Hty v saved.
  - reflexivity.
  - cbn [json.object].
    assert (Hrest : forall key0 v0, In (key0, v0) members ->
              json.findField fields key0 <> None -> stringOrNull v0)
      by (intros; eapply Hty; [ right | ]; eassumption).
    destruct (json.findField fields key) as [f | ] eqn:Hf; [ | now apply IH ].
    destruct (Hty key val) as [[s ->] | ->];
      [ now left | rewrite Hf; discriminate | | ]; now apply IH.
Qed.

End DecodeFacts.

(** The field a key of an upstream answer selects is one of the three of
    [OllamaResponse], and its setter writes that field only. *)
Lemma OllamaResponse_set (key : string) (f : json.field OllamaResponse)
    (s : string) (r : OllamaResponse) :
  json.findField OllamaResponse_fields key = Some f ->
  (json.name f = "response" ->
     OllamaResponse_Response (json.set f s r) = s)
  /\ (json.name f <> "response" ->
     OllamaResponse_Response (json.set f s r) = OllamaResponse_Response r).
Proof.
  unfold json.findField, OllamaResponse_fields. cbn [find json.name json.equalFold].
  repeat match goal with
         | |- context [if ?b then _ else _] => destruct b
         end;
    intros H; inversion H; subst; cbn; split; intros; congruence.
Qed.

(** Members after which no string is bound to [response] leave that field
    as it is. *)
Lemma object_keeps_response (post : list (string * json.value)) :
  (forall key v s, In (key, v) post ->
     OllamaResponse_fieldOf key = Some "response" -> v <> json.JString s) ->
  forall r saved,
    OllamaResponse_Response
      (fst (json.object "OllamaResponse" OllamaResponse_fields post r saved))
    = OllamaResponse_Response r.
Proof.
  induction post as [ | [key val] post IH]; intros Hno r saved.
  - reflexivity.
  - cbn [json.object].
    assert (Hrest : forall key0 v0 s0, In (key0, v0) post ->
              OllamaResponse_fieldOf key0 = Some "response" ->
              v0 <> json.JString s0)
      by (intros; eapply Hno; [ right | ]; eassumption).
    destruct (json.findField OllamaResponse_fields key) as [f | ] eqn:Hf;
      [ | now apply IH ].
    destruct val; try now apply IH.
    rewrite IH by assumption.
    apply (OllamaResponse_set key f s r Hf).
    intros Hname. apply (Hno key (json.JString s) s); [ now left | | reflexivity ].
    unfold OllamaResponse_fieldOf. now rewrite Hf, <- Hname.
Qed.

(** Decoding an object whose members fit the struct: no error, and the
    [Response] field holds the last string bound to it. *)
Lemma Decode_OllamaResponse_object (body : json.reader)
    (pre post : list (string * json.value)) (key s : string) :
  json.readValue body
    = inl (json.JObject (pre ++ (key, json.JString s) :: post)) ->
  OllamaResponse_fieldOf key = Some "response" ->
  (forall key' v s', In (key', v) post ->
     OllamaResponse_fieldOf key' = Some "response" -> v <> json.JString s') ->
  (forall key' v, In (key', v) (pre ++ (key, json.JString s) :: post) ->
     json.findField OllamaResponse_fields key' <> None -> stringOrNull v) ->
  snd (Decode_OllamaResponse body) = None
  /\ OllamaResponse_Response (fst (Decode_OllamaResponse body)) = s.
Proof.
  intros Hread Hkey Hlast Hty.
  unfold Decode_OllamaResponse, json.Decode. rewrite Hread.
  cbn [json.unmarshal]. split.
  - now apply object_no_error.
  - rewrite object_app. cbn [json.object].
    unfold OllamaResponse_fieldOf in Hkey.
    destruct (json.findField OllamaResponse_fields key) as [f | ] eqn:Hf;
      [ | discriminate ].
    rewrite object_keeps_response by assumption.
    apply (OllamaResponse_set key f s _ Hf).
    cbn in Hkey. congruence.
Qed.

Section RelayTheorems.

Variable upstream : Upstream.

(** C1 (as amended).  When the upstream answers 200 with a body whose first
    JSON value is an object in which every member that the decoder binds to
    [model], [created_at] or [response] holds a string or [null], then
    [GetCompletion] returns the string of the last [response] member that
    holds a string, as it is, with a nil error. *)
Theorem GetCompletion_returns_response (prompt model : string) (w : World)
    (resp : http_Response) (pre post : list (string * json.value))
    (key s : string) :
  upstream (upstreamCall (service w) prompt model) = inl resp ->
  StatusCode resp = http_StatusOK ->
  json.readValue (Body resp)
    = inl (json.JObject (pre ++ (key, json.JString s) :: post)) ->
  OllamaResponse_fieldOf key = Some "response" ->
  (forall key' v s', In (key', v) post ->
     OllamaResponse_fieldOf key' = Some "response" -> v <> json.JString s') ->
  (forall key' v, In (key', v) (pre ++ (key, json.JString s) :: post) ->
     json.findField OllamaResponse_fields key' <> None -> stringOrNull v) ->
  fst (GetCompletion upstream prompt model w) = (s, None).
Proof.
  intros Hup Hcode Hread Hkey Hlast Hty.
  rewrite GetCompletion_unfold, Hup, Hcode. cbn [fst negb Z.eqb http_StatusOK Pos.eqb].
  destruct (Decode_OllamaResponse_object _ _ _ _ _ Hread Hkey Hlast Hty)
    as [-> ->].
  reflexivity.
Qed.

(** C8.  Whenever [GetCompletion] returns an error, the text it returns is
    the empty string. *)
Theorem GetCompletion_error_text (prompt model : string) (w : World) :
  snd (fst (GetCompletion upstream prompt model w)) <> None ->
  fst (fst (GetCompletion upstream prompt model w)) = "".
Proof.
  rewrite GetCompletion_unfold. cbn [fst].
  destruct (upstream _) as [resp | e]; [ | reflexivity ].
  destruct (negb (StatusCode resp =? http_StatusOK)); [ reflexivity | ].
  destruct (snd (Decode_OllamaResponse (Body resp))); [ reflexivity | ].
  cbn [snd]. congruence.
Qed.

(** C9.  [GetCompletion] leaves the service as it was: the upstream URL, the
    HTTP client and the default model are the same after the call, whether
    or not the default model was substituted. *)
Theorem GetCompletion_service_unchanged (prompt model : string) (w : World) :
  service (snd (GetCompletion upstream prompt model w)) = service w
  /\ ollamaURL (service (snd (GetCompletion upstream prompt model w)))
     = ollamaURL (service w)
  /\ httpClient (service (snd (GetCompletion upstream prompt model w)))
     = httpClient (service w)
  /\ defaultModel (service (snd (GetCompletion upstream prompt model w)))
     = defaultModel (service w).
Proof.
  rewrite GetCompletion_unfold. repeat split.
Qed.

(** C10.  For a fixed upstream, two calls with the same prompt and model on
    services of equal configuration return the same text and error,
    whatever else differs between the two worlds. *)
Theorem GetCompletion_deterministic (prompt model : string) (w1 w2 : World) :
  ollamaURL (service w1) = ollamaURL (service w2) ->
  httpClient (service w1) = httpClient (service w2) ->
  defaultModel (service w1) = defaultModel (service w2) ->
  fst (GetCompletion upstream prompt model w1)
  = fst (GetCompletion upstream prompt model w2).
Proof.
  intros Hurl Hclient Hmodel.
  rewrite !GetCompletion_unfold. cbn [fst].
  destruct w1 as [[u1 c1 m1] p1], w2 as [[u2 c2 m2] p2].
  cbn in Hurl, Hclient, Hmodel. now subst.
Qed.

End RelayTheorems.

(** ** The HTTP boundary *)

(** The field a key of an inbound request selects is one of the two of
    [PromptRequest], and its setter writes that field only. *)
Lemma PromptRequest_set (key : string) (f : json.field PromptRequest)
    (s : string) (r : PromptRequest) :
  json.findField PromptRequest_fields key = Some f ->
  (json.name f = "prompt" -> PromptRequest_Prompt (json.set f s r) = s)
  /\ (json.name f <> "prompt" ->
      PromptRequest_Prompt (json.set f s r) = PromptRequest_Prompt r).
Proof.
  unfold json.findField, PromptRequest_fields. cbn [find json.name json.equalFold].
  repeat match goal with
         | |- context [if ?b then _ else _] => destruct b
         end;
    intros H; inversion H; subst; cbn; split; intros; congruence.
Qed.

(** Members that bind no string but the empty one to [prompt] leave an
    empty [Prompt] empty. *)
Lemma object_prompt_empty (members : list (string * json.value)) :
  (forall key s, In (key, json.JString s) members ->
     PromptRequest_fieldOf key = Some "prompt" -> s = "") ->
  forall r saved,
    PromptRequest_Prompt r = "" ->
    PromptRequest_Prompt
      (fst (json.object "PromptRequest" PromptRequest_fields members r saved))
    = "".
Proof.
  induction members as [ | [key val] members IH]; intros Hempty r saved Hr.
  - exact Hr.
  - cbn [json.object].
    assert (Hrest : forall key0 s0, In (key0, json.JString s0) members ->
              PromptRequest_fieldOf key0 = Some "prompt" -> s0 = "")
      by (intros; eapply Hempty; [ right | ]; eassumption).
    destruct (json.findField PromptRequest_fields key) as [f | ] eqn:Hf;
      [ | now apply IH ].
    destruct val; try now apply IH.
    apply IH; [ assumption | ].
    destruct (PromptRequest_set key f s r Hf) as [Hset Hother].
    destruct (string_dec (json.name f) "prompt") as [Hname | Hname].
    + rewrite (Hset Hname). apply (Hempty key); [ now left | ].
      unfold PromptRequest_fieldOf. now rewrite Hf, <- Hname.
    + now rewrite (Hother Hname).
Qed.

(** A body that omits [prompt] or gives it empty does not pass the
    binding. *)
Lemma ShouldBindJSON_prompt_empty (body : json.reader)
    (members : list (string * json.value)) :
  json.readValue body = inl (json.JObject members) ->
  (forall key s, In (key, json.JString s) members ->
     PromptRequest_fieldOf key = Some "prompt" -> s = "") ->
  exists err, snd (ShouldBindJSON body) = Some err.
Proof.
  intros Hread Hempty.
  unfold ShouldBindJSON, Decode_PromptRequest, json.Decode. rewrite Hread.
  cbn [json.unmarshal].
  pose proof (object_prompt_empty members Hempty (mkPromptRequest "" "") None
                eq_refl) as Hprompt.
  destruct (json.object _ _ members _ None) as [req [e | ]].
  - now exists e.
  - cbn [fst] in Hprompt. unfold validate. rewrite Hprompt. cbn. eauto.
Qed.

Section LastString.

Context {T : Type} (Struct : string) (fields : list (json.field T)).
Variable get : T -> string.
Variable fname : string.

Hypothesis Hset :
  forall key f s r,
    json.findField fields key = Some f ->
    (json.name f = fname -> get (json.set f s r) = s)
    /\ (json.name f <> fname -> get (json.set f s r) = get r).

Let fieldOf (key : string) : option string :=
  option_map json.name (json.findField fields key).

Lemma object_keeps (post : list (string * json.value)) :
  noString fieldOf fname post ->
  forall r saved,
    get (fst (json.object Struct fields post r saved)) = get r.
Proof.
  induction post as [ | [key val] post IH]; intros Hno r saved.
  - reflexivity.
  - cbn [json.object].
    assert (Hrest : noString fieldOf fname post)
      by (intros k v s Hin; apply Hno; now right).
    destruct (json.findField fields key) as [f | ] eqn:Hf; [ | now apply IH ].
    destruct val; try now apply IH.
    rewrite IH by assumption.
    apply (Hset key f s r Hf).
    intros Hname. apply (Hno key (json.JString s) s); [ now left | | reflexivity ].
    unfold fieldOf. now rewrite Hf, <- Hname.
Qed.

Lemma object_last (members : list (string * json.value)) (s : string) :
  lastString fieldOf fname members s ->
  forall r saved,
    get (fst (json.object Struct fields members r saved)) = s.
Proof.
  intros (pre & key & post & -> & Hkey & Hno) r saved.
  rewrite object_app. cbn [json.object].
  unfold fieldOf in Hkey.
  destruct (json.findField fields key) as [f | ] eqn:Hf; [ | discriminate ].
  rewrite object_keeps by assumption.
  apply (Hset key f s _ Hf). cbn in Hkey. congruence.
Qed.

(** Once a type error is saved, it is the one returned. *)
Lemma object_saved (members : list (string * json.value)) (r : T) (e : error) :
  snd (json.object Struct fields members r (Some e)) = Some e.
Proof.
  revert r. induction members as [ | [key val] members IH]; intros r.
  - reflexivity.
  - cbn [json.object].
    destruct (json.findField fields key) as [f | ]; [ | apply IH ].
    destruct val; apply IH.
Qed.

End LastString.

Lemma PromptRequest_set_model (key : string) (f : json.field PromptRequest)
    (s : string) (r : PromptRequest) :
  json.findField PromptRequest_fields key = Some f ->
  (json.name f = "model" -> PromptRequest_Model (json.set f s r) = s)
  /\ (json.name f <> "model" ->
      PromptRequest_Model (json.set f s r) = PromptRequest_Model r).
Proof.
  unfold json.findField, PromptRequest_fields. cbn [find json.name json.equalFold].
  repeat match goal with
         | |- context [if ?b then _ else _] => destruct b
         end;
    intros H; inversion H; subst; cbn; split; intros; congruence.
Qed.

(** What the binding makes of an object that fits [PromptRequest]. *)
Lemma ShouldBindJSON_object (body : json.reader)
    (members : list (string * json.value)) (prompt model : string) :
  json.readValue body = inl (json.JObject members) ->
  (forall key v, In (key, v) members ->
     json.findField PromptRequest_fields key <> None -> stringOrNull v) ->
  lastString PromptRequest_fieldOf "prompt" members prompt ->
  prompt <> "" ->
  lastString PromptRequest_fieldOf "model" members model
  \/ (noString PromptRequest_fieldOf "model" members /\ model = "") ->
  ShouldBindJSON body = (mkPromptRequest prompt model, None).
Proof.
  intros Hread Hty Hprompt Hne Hmodel.
  unfold ShouldBindJSON, Decode_PromptRequest, json.Decode. rewrite Hread.
  cbn [json.unmarshal].
  pose proof (object_no_error "PromptRequest" PromptRequest_fields members Hty
                (mkPromptRequest "" "") None) as Herr.
  pose proof (object_last "PromptRequest" PromptRequest_fields
                PromptRequest_Prompt "prompt" PromptRequest_set members prompt
                Hprompt (mkPromptRequest "" "") None) as Hp.
  assert (Hm : PromptRequest_Model
                 (fst (json.object "PromptRequest" PromptRequest_fields members
                         (mkPromptRequest "" "") None)) = model).
  { destruct Hmodel as [Hlast | [Hno ->]].
    - exact (object_last "PromptRequest" PromptRequest_fields
               PromptRequest_Model "model" PromptRequest_set_model members
               model Hlast (mkPromptRequest "" "") None).
    - exact (object_keeps "PromptRequest" PromptRequest_fields
               PromptRequest_Model "model" PromptRequest_set_model members
               Hno (mkPromptRequest "" "") None). }
  destruct (json.object _ _ members _ None) as [[p m] e].
  cbn [fst snd PromptRequest_Prompt PromptRequest_Model] in Herr, Hp, Hm.
  subst e p m. unfold validate. cbn [PromptRequest_Prompt].
  apply String.eqb_neq in Hne. now rewrite Hne.
Qed.

Section BoundaryTheorems.

Variable upstream : Upstream.
Variable elapsed : string.

(** What the router answers to [POST /api/complete]. *)
Lemma serve_complete (body : json.reader) (w : World) :
  serve upstream elapsed (gin.mkRequest "POST" "/api/complete" body) w =
  match ShouldBindJSON body with
  | (_, Some err) =>
    (gin.Served (gin.mkResponse http_StatusBadRequest jsonHeaders
                   (fst (gin.H "error" (Error err)))), w)
  | (req, None) =>
    match GetCompletion upstream (PromptRequest_Prompt req)
            (PromptRequest_Model req) w with
    | ((_, Some err), w') =>
      (gin.Served (gin.mkResponse http_StatusInternalServerError jsonHeaders
                     (fst (gin.H "error" (Error err)))), w')
    | ((response, None), w') =>
      (gin.Served
         (gin.mkResponse http_StatusOK jsonHeaders
            (fst (Marshal_PromptResponse
                    {| PromptResponse_Response := response;
                       PromptResponse_Model := PromptRequest_Model req;
                       PromptResponse_Time := elapsed |}))), w')
    end
  end.
Proof.
  unfold serve, gin.ServeHTTP.
  cbv -[ShouldBindJSON GetCompletion json.encodeBytes Error String.append
        PromptRequest_Prompt PromptRequest_Model].
  destruct (ShouldBindJSON body) as [req [e | ]]; [ reflexivity | ].
  destruct (GetCompletion _ _ _ _) as [[text [e | ]] w']; reflexivity.
Qed.

(** C3.  When the upstream answers with a status other than 200,
    [GetCompletion] returns the error whose message is the status code and
    the bytes of the upstream body after fixed words, and the handler of
    [POST /api/complete] answers 500 with that message as [error]. *)
Theorem upstream_status_error (prompt model : string) (w : World)
    (resp : http_Response) :
  upstream (upstreamCall (service w) prompt model) = inl resp ->
  StatusCode resp <> http_StatusOK ->
  fst (GetCompletion upstream prompt model w)
  = ("", Some (errorString
                 ("ollama returned status " ++ strconv.Itoa (StatusCode resp)
                    ++ ": " ++ json.data (Body resp))))
  /\ forall (body : json.reader) (req : PromptRequest),
       ShouldBindJSON body = (req, None) ->
       PromptRequest_Prompt req = prompt ->
       PromptRequest_Model req = model ->
       fst (serve upstream elapsed
              (gin.mkRequest "POST" "/api/complete" body) w)
       = gin.Served
           (gin.mkResponse http_StatusInternalServerError jsonHeaders
              (fst (gin.H "error"
                      ("ollama returned status "
                         ++ strconv.Itoa (StatusCode resp) ++ ": "
                         ++ json.data (Body resp))))).
Proof.
  intros Hup Hcode.
  assert (Hget : fst (GetCompletion upstream prompt model w)
                 = ("", Some (errorString
                                ("ollama returned status "
                                   ++ strconv.Itoa (StatusCode resp) ++ ": "
                                   ++ json.data (Body resp))))).
  { rewrite GetCompletion_unfold, Hup. cbn [fst].
    apply Z.eqb_neq in Hcode. now rewrite Hcode. }
  split; [ exact Hget | ].
  intros body req Hbind <- <-.
  rewrite serve_complete, Hbind.
  destruct (GetCompletion _ _ _ _) as [[text err] w'].
  cbn [fst] in Hget. inversion Hget; subst. reflexivity.
Qed.

(** C4.  A [POST /api/complete] whose body is an object that omits [prompt],
    or binds no string but the empty one to it, is answered 400 with the
    message of the binding error, and the world is left as it was: no call
    to the upstream is made. *)
Theorem missing_prompt_rejected (body : json.reader) (w : World)
    (members : list (string * json.value)) :
  json.readValue body = inl (json.JObject members) ->
  (forall key s, In (key, json.JString s) members ->
     PromptRequest_fieldOf key = Some "prompt" -> s = "") ->
  exists err,
    snd (ShouldBindJSON body) = Some err
    /\ serve upstream elapsed (gin.mkRequest "POST" "/api/complete" body) w
       = (gin.Served (gin.mkResponse http_StatusBadRequest jsonHeaders
                        (fst (gin.H "error" (Error err)))), w).
Proof.
  intros Hread Hempty.
  destruct (ShouldBindJSON_prompt_empty body members Hread Hempty)
    as [err Herr].
  exists err. split; [ exact Herr | ].
  rewrite serve_complete.
  destruct (ShouldBindJSON body) as [req e]. cbn [snd] in Herr. now subst e.
Qed.

(** C5.  For a [POST /api/complete] whose body is an object that fits
    [PromptRequest] and supplies a prompt that is not empty, and whose
    completion succeeds, the answer is 200 with an envelope whose [model]
    member is the model the body supplies (the last string it binds to
    [model]), and the empty string when the body supplies none, while the
    one call made to the upstream carries that model, or the default model
    of the service when none was supplied. *)
Theorem response_model_is_inbound (body : json.reader) (w : World)
    (members : list (string * json.value)) (prompt model text : string) :
  json.readValue body = inl (json.JObject members) ->
  (forall key v, In (key, v) members ->
     json.findField PromptRequest_fields key <> None -> stringOrNull v) ->
  lastString PromptRequest_fieldOf "prompt" members prompt ->
  prompt <> "" ->
  lastString PromptRequest_fieldOf "model" members model
  \/ (noString PromptRequest_fieldOf "model" members /\ model = "") ->
  fst (GetCompletion upstream prompt model w) = (text, None) ->
  serve upstream elapsed (gin.mkRequest "POST" "/api/complete" body) w
  = (gin.Served
       (gin.mkResponse http_StatusOK jsonHeaders
          ("{" ++ (json.encodeString "response" ++ ":"
                     ++ json.encodeString text
                     ++ "," ++ json.encodeString "model" ++ ":"
                     ++ json.encodeString model
                     ++ "," ++ json.encodeString "time" ++ ":"
                     ++ json.encodeString elapsed) ++ "}")),
     mkWorld (service w)
       (posts w ++
        [ {| post_client := httpClient (service w);
             post_url := ollamaURL (service w) ++ "/api/generate";
             post_contentType := "application/json";
             post_body :=
               fst (Marshal_OllamaRequest
                      {| OllamaRequest_Model :=
                           if (model =? "")%string
                           then defaultModel (service w) else model;
                         OllamaRequest_Prompt := prompt |}) |} ])).
Proof.
  intros Hread Hty Hprompt Hne Hmodel Hget.
  rewrite serve_complete.
  rewrite (ShouldBindJSON_object body members prompt model Hread Hty Hprompt
             Hne Hmodel).
  cbn [PromptRequest_Prompt PromptRequest_Model].
  pose proof (GetCompletion_unfold upstream prompt model w) as Hun.
  destruct (GetCompletion upstream prompt model w) as [[text' err] w'].
  cbn [fst] in Hget. inversion Hget; subst text' err.
  inversion Hun. reflexivity.
Qed.

(** C6.  [GET /health] is answered 200 with the body [{"status":"healthy"}]
    whatever the upstream is, and the world is left as it was: no call to
    the upstream is made. *)
Theorem health_always_healthy (body : json.reader) (w : World) :
  serve upstream elapsed (gin.mkRequest "GET" "/health" body) w
  = (gin.Served
       (gin.mkResponse http_StatusOK jsonHeaders
          ("{" ++ dq ++ "status" ++ dq ++ ":" ++ dq ++ "healthy" ++ dq ++ "}")),
     w).
Proof.
  reflexivity.
Qed.

End BoundaryTheorems.

Section Cors.

Variable upstream : Upstream.
Variable elapsed : string.

Ltac cors_done :=
  match goal with
  | H : (_, _) = (gin.Served _, _) |- _ =>
    inversion H; subst; clear H; unfold carriesCors, corsHeaders;
    intros k v Hin; cbn in Hin;
    repeat (destruct Hin as [Hin | Hin]; [ inversion Hin; reflexivity | ]);
    contradiction
  | H : (gin.Redirected _, _) = (gin.Served _, _) |- _ => discriminate H
  end.

(** Whatever the router serves through a chain of handlers carries the CORS
    headers. *)
Lemma served_carries_cors (r : gin.Request) (w w' : World)
    (resp : gin.Response) :
  serve upstream elapsed r w = (gin.Served resp, w') ->
  carriesCors (gin.resp_header resp).
Proof.
  destruct r as [method path body].
  unfold serve, gin.ServeHTTP.
  cbn [router gin.trees gin.findTree gin.Method gin.Path gin.allNoRoute].
  destruct (String.eqb "POST" method) eqn:Epost.
  - apply String.eqb_eq in Epost. subst method.
    destruct (gin.getValue "/api/complete" path) as [[ | ] tsr].
    + cbv -[ShouldBindJSON GetCompletion json.encodeBytes Error String.append
            PromptRequest_Prompt PromptRequest_Model carriesCors].
      destruct (ShouldBindJSON body) as [req [e | ]];
        [ intros H; cors_done | ].
      destruct (GetCompletion _ _ _ _) as [[text [e | ]] w1];
        intros H; cors_done.
    + destruct (_ && _ && tsr); cbv -[carriesCors]; intros H; cors_done.
  - destruct (String.eqb "GET" method) eqn:Eget.
    + apply String.eqb_eq in Eget. subst method.
      destruct (gin.getValue "/health" path) as [[ | ] tsr].
      * cbv -[carriesCors]. intros H; cors_done.
      * destruct (_ && _ && tsr); cbv -[carriesCors]; intros H; cors_done.
    + cbv -[carriesCors String.eqb].
      destruct (String.eqb method "OPTIONS"); intros H; cors_done.
Qed.

(** C7.  An [OPTIONS] request on any path is answered 204 with an empty
    body and the CORS headers, and the world is left as it was: the
    completion logic is not run.  Every response the router serves through
    its handlers carries the CORS headers, and a request on the path of a
    route is always served so, whatever its method. *)
Theorem cors_and_preflight :
  (forall (path : string) (body : json.reader) (w : World),
     serve upstream elapsed (gin.mkRequest "OPTIONS" path body) w
     = (gin.Served (gin.mkResponse 204 corsHeaders ""), w))
  /\ (forall (r : gin.Request) (w w' : World) (resp : gin.Response),
        serve upstream elapsed r w = (gin.Served resp, w') ->
        carriesCors (gin.resp_header resp))
  /\ (forall (method path : string) (body : json.reader) (w : World),
        path = "/api/complete" \/ path = "/health" ->
        exists resp w',
          serve upstream elapsed (gin.mkRequest method path body) w
          = (gin.Served resp, w')
          /\ carriesCors (gin.resp_header resp)).
Proof.
  split; [ reflexivity | ].
  split; [ exact served_carries_cors | ].
  intros method path body w Hpath.
  assert (Hserved : exists resp w',
             serve upstream elapsed (gin.mkRequest method path body) w
             = (gin.Served resp, w')).
  { destruct (String.eqb "POST" method) eqn:Epost;
      [ | destruct (String.eqb "GET" method) eqn:Eget ].
    - apply String.eqb_eq in Epost. subst method.
      destruct Hpath as [-> | ->]; [ | cbv; eauto ].
      rewrite serve_complete.
      destruct (ShouldBindJSON body) as [req [e | ]]; [ eauto | ].
      destruct (GetCompletion _ _ _ _) as [[text [e | ]] w1]; eauto.
    - apply String.eqb_eq in Eget. subst method.
      destruct Hpath as [-> | ->]; cbv; eauto.
    - unfold serve, gin.ServeHTTP.
      cbn [router gin.trees gin.findTree gin.Method gin.Path gin.allNoRoute].
      rewrite Epost, Eget. cbv -[String.eqb].
      destruct (String.eqb method "OPTIONS"); eauto. }
  destruct Hserved as (resp & w' & Hs).
  exists resp, w'. split; [ exact Hs | ].
  exact (served_carries_cors _ _ _ _ Hs).
Qed.

End Cors.

(** ** The statements at sample inputs *)

Import Sample.

(** The end-to-end example: the upstream answers
    [{"model":"llama2","created_at":"t","response":"hi there"}]. *)
Lemma GetCompletion_returns_response_witness :
  fst (GetCompletion
         (replies 200 (q "{'model':'llama2','created_at':'t','response':'hi there'}"))
         "hello" "" world0)
  = ("hi there", None).
Proof.
  apply (GetCompletion_returns_response
           (replies 200 (q "{'model':'llama2','created_at':'t','response':'hi there'}"))
           "hello" "" world0
           (mkResponse 200
              (json.mkReader
                 (q "{'model':'llama2','created_at':'t','response':'hi there'}")
                 None))
           [("model", json.JString "llama2"); ("created_at", json.JString "t")]
           [] "response" "hi there").
  - reflexivity.
  - reflexivity.
  - vm_compute. reflexivity.
  - vm_compute. reflexivity.
  - intros key' v s' Hin. destruct Hin.
  - intros key' v Hin _. cbn in Hin.
    destruct Hin as [Hin | [Hin | [Hin | Hin]]];
      [ inversion Hin; left; eauto .. | destruct Hin ].
Defined.

(** C1 as stated fails: the body
    [{"model":7,"response":"hi"}] is JSON and holds a [response] string, yet
    [GetCompletion] returns a decoding error and no text, for the number
    under [model]. *)
Lemma GetCompletion_rejects_typed_sibling :
  json.readValue (json.mkReader (q "{'model':7,'response':'hi'}") None)
  = inl (json.JObject
           [("model", json.JNumber "7"); ("response", json.JString "hi")])
  /\ fst (GetCompletion (replies 200 (q "{'model':7,'response':'hi'}"))
            "hello" "" world0)
     = ("",
        Some (wrapError
                "failed to decode ollama response: json: cannot unmarshal number into Go struct field OllamaResponse.model of type string"
                (json_UnmarshalTypeError "number" "string" "OllamaResponse"
                   "model")))
  /\ fst (GetCompletion (replies 200 (q "{'model':7,'response':'hi'}"))
            "hello" "" world0)
     <> ("hi", None).
Proof.
  split; [ vm_compute; reflexivity | ].
  split; [ vm_compute; reflexivity | ].
  vm_compute. discriminate.
Qed.

(** The upstream answers 503 with the body [overloaded]. *)
Lemma upstream_status_error_witness :
  fst (GetCompletion (replies 503 "overloaded") "hello" "" world0)
  = ("", Some (errorString "ollama returned status 503: overloaded"))
  /\ fst (serve (replies 503 "overloaded") "1.5ms"
            (request "POST" "/api/complete" (q "{'prompt':'hello'}")) world0)
     = gin.Served
         (gin.mkResponse 500 jsonHeaders
            (q "{'error':'ollama returned status 503: overloaded'}")).
Proof.
  destruct (upstream_status_error (replies 503 "overloaded") "1.5ms"
              "hello" "" world0
              (mkResponse 503 (json.mkReader "overloaded" None)))
    as [Hget Hserve].
  - reflexivity.
  - vm_compute. discriminate.
  - split; [ exact Hget | ].
    apply (Hserve (json.mkReader (q "{'prompt':'hello'}") None)
             (mkPromptRequest "hello" "")).
    + vm_compute. reflexivity.
    + reflexivity.
    + reflexivity.
Defined.

(** A body without [prompt], and one with an empty [prompt]. *)
Lemma missing_prompt_rejected_witness :
  (exists err,
     snd (ShouldBindJSON (json.mkReader (q "{'model':'llama2'}") None))
     = Some err
     /\ serve unreachable "1.5ms"
          (request "POST" "/api/complete" (q "{'model':'llama2'}")) world0
        = (gin.Served (gin.mkResponse 400 jsonHeaders
                         (fst (gin.H "error" (Error err)))), world0))
  /\ (exists err,
        snd (ShouldBindJSON (json.mkReader (q "{'prompt':''}") None))
        = Some err
        /\ serve unreachable "1.5ms"
             (request "POST" "/api/complete" (q "{'prompt':''}")) world0
           = (gin.Served (gin.mkResponse 400 jsonHeaders
                            (fst (gin.H "error" (Error err)))), world0)).
Proof.
  split.
  - apply (missing_prompt_rejected unreachable "1.5ms"
             (json.mkReader (q "{'model':'llama2'}") None) world0
             [("model", json.JString "llama2")]).
    + vm_compute. reflexivity.
    + intros key s Hin Hkey. cbn in Hin. destruct Hin as [Hin | Hin].
      * inversion Hin; subst. vm_compute in Hkey. discriminate.
      * destruct Hin.
  - apply (missing_prompt_rejected unreachable "1.5ms"
             (json.mkReader (q "{'prompt':''}") None) world0
             [("prompt", json.JString "")]).
    + vm_compute. reflexivity.
    + intros key s Hin Hkey. cbn in Hin. destruct Hin as [Hin | Hin].
      * inversion Hin; subst. reflexivity.
      * destruct Hin.
Defined.

(** A request that supplies the model [mistral], and one that supplies
    none. *)
Lemma response_model_is_inbound_witness :
  serve (replies 200 (q "{'model':'mistral','created_at':'t','response':'hi there'}"))
    "1.5ms"
    (request "POST" "/api/complete" (q "{'prompt':'hello','model':'mistral'}"))
    world0
  = (gin.Served
       (gin.mkResponse 200 jsonHeaders
          (q "{'response':'hi there','model':'mistral','time':'1.5ms'}")),
     mkWorld svc
       [ {| post_client := {| Timeout := 60000000000 |};
            post_url := "http://localhost:11434/api/generate";
            post_contentType := "application/json";
            post_body := q "{'model':'mistral','prompt':'hello'}" |} ])
  /\ serve (replies 200 (q "{'model':'llama2','created_at':'t','response':'hi there'}"))
       "1.5ms" (request "POST" "/api/complete" (q "{'prompt':'hello'}")) world0
     = (gin.Served
          (gin.mkResponse 200 jsonHeaders
             (q "{'response':'hi there','model':'','time':'1.5ms'}")),
        mkWorld svc
          [ {| post_client := {| Timeout := 60000000000 |};
               post_url := "http://localhost:11434/api/generate";
               post_contentType := "application/json";
               post_body := q "{'model':'llama2','prompt':'hello'}" |} ]).
Proof.
  split.
  - apply (response_model_is_inbound
             (replies 200 (q "{'model':'mistral','created_at':'t','response':'hi there'}"))
             "1.5ms"
             (json.mkReader (q "{'prompt':'hello','model':'mistral'}") None)
             world0
             [("prompt", json.JString "hello"); ("model", json.JString "mistral")]
             "hello" "mistral" "hi there").
    + vm_compute. reflexivity.
    + intros key v Hin _. cbn in Hin.
      destruct Hin as [Hin | [Hin | Hin]];
        [ inversion Hin; left; eauto .. | destruct Hin ].
    + exists [], "prompt", [("model", json.JString "mistral")].
      split; [ reflexivity | ]. split; [ reflexivity | ].
      intros key v s Hin Hkey. destruct Hin as [Hin | []].
      inversion Hin; subst. vm_compute in Hkey. discriminate.
    + discriminate.
    + left. exists [("prompt", json.JString "hello")], "model", [].
      split; [ reflexivity | ]. split; [ reflexivity | ].
      intros key v s Hin. destruct Hin.
    + vm_compute. reflexivity.
  - apply (response_model_is_inbound
             (replies 200 (q "{'model':'llama2','created_at':'t','response':'hi there'}"))
             "1.5ms" (json.mkReader (q "{'prompt':'hello'}") None) world0
             [("prompt", json.JString "hello")] "hello" "" "hi there").
    + vm_compute. reflexivity.
    + intros key v Hin _. destruct Hin as [Hin | []].
      inversion Hin. left. eauto.
    + exists [], "prompt", [].
      split; [ reflexivity | ]. split; [ reflexivity | ].
      intros key v s Hin. destruct Hin.
    + discriminate.
    + right. split; [ | reflexivity ].
      intros key v s Hin Hkey. destruct Hin as [Hin | []].
      inversion Hin; subst. vm_compute in Hkey. discriminate.
    + vm_compute. reflexivity.
Defined.

(** A preflight of the completion route, and a path that is no route. *)
Lemma cors_and_preflight_witness :
  serve unreachable "1.5ms" (request "OPTIONS" "/api/complete" "") world0
  = (gin.Served (gin.mkResponse 204 corsHeaders ""), world0)
  /\ carriesCors
       [("Access-Control-Allow-Origin", "*");
        ("Access-Control-Allow-Methods", "POST, GET, OPTIONS");
        ("Access-Control-Allow-Headers",
         "Content-Type, Content-Length, Accept-Encoding, Authorization");
        ("Content-Type", "text/plain")].
Proof.
  destruct (cors_and_preflight unreachable "1.5ms") as (Hopt & Hcors & _).
  split.
  - apply Hopt.
  - apply (Hcors (request "DELETE" "/nowhere" "") world0 world0
             (gin.mkResponse 404
                [("Access-Control-Allow-Origin", "*");
                 ("Access-Control-Allow-Methods", "POST, GET, OPTIONS");
                 ("Access-Control-Allow-Headers",
                  "Content-Type, Content-Length, Accept-Encoding, Authorization");
                 ("Content-Type", "text/plain")]
                "404 page not found")).
    vm_compute. reflexivity.
Defined.

(** An upstream that cannot be reached. *)
Lemma GetCompletion_error_text_witness :
  snd (fst (GetCompletion unreachable "hello" "" world0)) <> None
  /\ fst (fst (GetCompletion unreachable "hello" "" world0)) = "".
Proof.
  assert (H : snd (fst (GetCompletion unreachable "hello" "" world0)) <> None)
    by (vm_compute; discriminate).
  split; [ exact H | ].
  exact (GetCompletion_error_text unreachable "hello" "" world0 H).
Defined.

(** Two worlds with the same service and different histories. *)
Lemma GetCompletion_deterministic_witness :
  fst (GetCompletion (replies 200 (q "{'response':'hi'}")) "hello" "" world0)
  = fst (GetCompletion (replies 200 (q "{'response':'hi'}")) "hello" "" world1).
Proof.
  apply (GetCompletion_deterministic (replies 200 (q "{'response':'hi'}"))
           "hello" "" world0 world1); reflexivity.
Defined.

(** * Further properties of the relay *)

(** ** Failures and edge answers of the upstream *)

(** A value that is complete within the bytes read so far stays the value
    read, whatever bytes follow. *)
Lemma scanBytes_app_done (s : json.scanner) (a b : string) (v : json.value) :
  json.scanBytes s a = json.scanDone v ->
  json.scanBytes s (a ++ b) = json.scanDone v.
Proof.
  revert s. induction a as [ | c a IH]; intros s; cbn [json.scanBytes append].
  - discriminate.
  - destruct (json.scanStep s c); [ apply IH | trivial | discriminate ].
Qed.

Lemma readValue_done (a : string) (e : option error) (v : json.value) :
  json.scanBytes (json.mkScanner json.stateBeginValue []) a = json.scanDone v ->
  json.readValue (json.mkReader a e) = inl v.
Proof.
  intros H. unfold json.readValue. cbn [json.data]. now rewrite H.
Qed.

(** Binding succeeds with a non-empty prompt only. *)
Lemma ShouldBindJSON_prompt (body : json.reader) (req : PromptRequest) :
  ShouldBindJSON body = (req, None) -> PromptRequest_Prompt req <> "".
Proof.
  unfold ShouldBindJSON.
  destruct (Decode_PromptRequest body) as [r [e | ]]; [ discriminate | ].
  unfold validate.
  destruct (PromptRequest_Prompt r =? "")%string eqn:E; [ discriminate | ].
  intros H. inversion H; subst. now apply String.eqb_neq.
Qed.

Lemma getValue_found (prefix path : string) :
  fst (gin.getValue prefix path) = true -> path = prefix.
Proof.
  unfold gin.getValue.
  destruct (_ && String.prefix prefix path); [ discriminate | ].
  destruct (String.eqb path prefix) eqn:E; [ | discriminate ].
  intros _. now apply String.eqb_eq.
Qed.

Section RelayEdges.

Variable upstream : Upstream.

(** X2.  A 200 body that is an object whose first member at fault binds a
    value that is neither a string nor [null] to a field of the struct is
    a decoding failure: the error returned names the kind of that value and
    that field, whatever follows in the object, a [response] string
    included, and the text returned is empty. *)
Theorem GetCompletion_first_type_error (prompt model : string) (w : World)
    (resp : http_Response) (pre post : list (string * json.value))
    (key fname : string) (v : json.value) :
  upstream (upstreamCall (service w) prompt model) = inl resp ->
  StatusCode resp = http_StatusOK ->
  json.readValue (Body resp) = inl (json.JObject (pre ++ (key, v) :: post)) ->
  (forall key' v', In (key', v') pre ->
     json.findField OllamaResponse_fields key' <> None -> stringOrNull v') ->
  OllamaResponse_fieldOf key = Some fname ->
  ~ stringOrNull v ->
  fst (GetCompletion upstream prompt model w)
  = ("",
     Some (wrapError
             ("failed to decode ollama response: json: cannot unmarshal "
                ++ json.kind v ++ " into Go struct field OllamaResponse."
                ++ fname ++ " of type string")
             (json_UnmarshalTypeError (json.kind v) "string" "OllamaResponse"
                fname))).
Proof.
  intros Hup Hcode Hread Hpre Hkey Hv.
  rewrite GetCompletion_unfold, Hup, Hcode.
  unfold Decode_OllamaResponse, json.Decode. rewrite Hread.
  cbn [json.unmarshal negb Z.eqb http_StatusOK Pos.eqb].
  rewrite object_app.
  rewrite (object_no_error "OllamaResponse" OllamaResponse_fields pre Hpre).
  cbn [json.object]. unfold OllamaResponse_fieldOf in Hkey.
  destruct (json.findField OllamaResponse_fields key) as [f | ];
    [ | discriminate ].
  cbn in Hkey. inversion Hkey; subst fname.
  destruct v;
    try solve [ exfalso; apply Hv;
                first [ right; reflexivity | left; eexists; reflexivity ] ];
    cbn [json.saveError]; rewrite object_saved; reflexivity.
Qed.

(** X4.  A 200 answer whose body is [null], or an object that fits the
    struct and binds no string to [response], is a success with the empty
    text. *)
Theorem GetCompletion_empty_text (prompt model : string) (w : World)
    (resp : http_Response) :
  upstream (upstreamCall (service w) prompt model) = inl resp ->
  StatusCode resp = http_StatusOK ->
  json.readValue (Body resp) = inl json.JNull
  \/ (exists members,
        json.readValue (Body resp) = inl (json.JObject members)
        /\ (forall key v, In (key, v) members ->
              json.findField OllamaResponse_fields key <> None ->
              stringOrNull v)
        /\ (forall key v s, In (key, v) members ->
              OllamaResponse_fieldOf key = Some "response" ->
              v <> json.JString s)) ->
  fst (GetCompletion upstream prompt model w) = ("", None).
Proof.
  intros Hup Hcode Hbody.
  rewrite GetCompletion_unfold, Hup, Hcode.
  unfold Decode_OllamaResponse, json.Decode.
  destruct Hbody as [-> | (members & -> & Hty & Hno)]; [ reflexivity | ].
  cbn [json.unmarshal negb Z.eqb http_StatusOK Pos.eqb].
  rewrite (object_no_error "OllamaResponse" OllamaResponse_fields members Hty).
  now rewrite object_keeps_response.
Qed.

End RelayEdges.

(** X3.  Only the first JSON value of a 200 body is read: two upstreams
    whose bodies agree up to the end of that value give the same result,
    whatever follows it in either. *)
Theorem GetCompletion_first_value_only (up1 up2 : Upstream)
    (prompt model : string) (w : World) (a b : string)
    (e1 e2 : option error) (v : json.value) :
  json.scanBytes (json.mkScanner json.stateBeginValue []) a = json.scanDone v ->
  up1 (upstreamCall (service w) prompt model)
  = inl (mkResponse http_StatusOK (json.mkReader a e1)) ->
  up2 (upstreamCall (service w) prompt model)
  = inl (mkResponse http_StatusOK (json.mkReader (a ++ b) e2)) ->
  fst (GetCompletion up1 prompt model w)
  = fst (GetCompletion up2 prompt model w).
Proof.
  intros Hscan H1 H2.
  rewrite !GetCompletion_unfold, H1, H2. cbn [fst StatusCode Body].
  unfold Decode_OllamaResponse, json.Decode.
  rewrite (readValue_done a e1 v Hscan).
  now rewrite (readValue_done (a ++ b) e2 v (scanBytes_app_done _ a b v Hscan)).
Qed.

(** ** The boundary around the relay *)

Section BoundaryEdges.

Variable upstream : Upstream.
Variable elapsed : string.

(** X1.  Whatever error [GetCompletion] returns for a bound request, the
    handler answers 500 with its message as [error], after the one call to
    the upstream. *)
Theorem relay_failure_is_500 (body : json.reader) (w : World)
    (req : PromptRequest) (err : error) :
  ShouldBindJSON body = (req, None) ->
  snd (fst (GetCompletion upstream (PromptRequest_Prompt req)
              (PromptRequest_Model req) w)) = Some err ->
  serve upstream elapsed (gin.mkRequest "POST" "/api/complete" body) w
  = (gin.Served
       (gin.mkResponse http_StatusInternalServerError jsonHeaders
          (fst (gin.H "error" (Error err)))),
     mkWorld (service w)
       (posts w ++ [upstreamCall (service w) (PromptRequest_Prompt req)
                      (PromptRequest_Model req)])).
Proof.
  intros Hbind Herr.
  rewrite serve_complete, Hbind.
  pose proof (GetCompletion_unfold upstream (PromptRequest_Prompt req)
                (PromptRequest_Model req) w) as Hun.
  destruct (GetCompletion _ _ _ _) as [[text e] w'].
  cbn [fst snd] in Herr. subst e. now inversion Hun.
Qed.

(** X10.  A body the decoder cannot read a value from is answered 400 with
    the decoder's message, and no call to the upstream is made. *)
Theorem unreadable_body_rejected (body : json.reader) (w : World) (e : error) :
  json.readValue body = inr e ->
  serve upstream elapsed (gin.mkRequest "POST" "/api/complete" body) w
  = (gin.Served (gin.mkResponse http_StatusBadRequest jsonHeaders
                   (fst (gin.H "error" (Error e)))), w).
Proof.
  intros Hread. rewrite serve_complete.
  unfold ShouldBindJSON, Decode_PromptRequest, json.Decode.
  now rewrite Hread.
Qed.

(** X9.  The text of the upstream reaches the caller as it is: for a bound
    request and a 200 answer that fits the struct, the envelope holds the
    last string bound to [response], the inbound model and the elapsed
    time. *)
Theorem envelope_carries_response (body : json.reader) (w : World)
    (req : PromptRequest) (resp : http_Response)
    (pre post : list (string * json.value)) (key s : string) :
  ShouldBindJSON body = (req, None) ->
  upstream (upstreamCall (service w) (PromptRequest_Prompt req)
              (PromptRequest_Model req)) = inl resp ->
  StatusCode resp = http_StatusOK ->
  json.readValue (Body resp)
    = inl (json.JObject (pre ++ (key, json.JString s) :: post)) ->
  OllamaResponse_fieldOf key = Some "response" ->
  (forall key' v s', In (key', v) post ->
     OllamaResponse_fieldOf key' = Some "response" -> v <> json.JString s') ->
  (forall key' v, In (key', v) (pre ++ (key, json.JString s) :: post) ->
     json.findField OllamaResponse_fields key' <> None -> stringOrNull v) ->
  fst (serve upstream elapsed (gin.mkRequest "POST" "/api/complete" body) w)
  = gin.Served
      (gin.mkResponse http_StatusOK jsonHeaders
         ("{" ++ (json.encodeString "response" ++ ":" ++ json.encodeString s
                    ++ "," ++ json.encodeString "model" ++ ":"
                    ++ json.encodeString (PromptRequest_Model req)
                    ++ "," ++ json.encodeString "time" ++ ":"
                    ++ json.encodeString elapsed) ++ "}")).
Proof.
  intros Hbind Hup Hcode Hread Hkey Hlast Hty.
  rewrite serve_complete, Hbind, GetCompletion_unfold, Hup, Hcode.
  destruct (Decode_OllamaResponse_object _ _ _ _ _ Hread Hkey Hlast Hty)
    as [Herr Hresp].
  cbn [negb Z.eqb http_StatusOK Pos.eqb]. rewrite Herr, Hresp. reflexivity.
Qed.

(** X5.  Serving a request leaves the service as it was and makes at most
    one call to the upstream; it makes one only for a [POST /api/complete]
    whose body binds, and then with a prompt that is not empty. *)
Theorem at_most_one_upstream_call (r : gin.Request) (w : World) :
  service (snd (serve upstream elapsed r w)) = service w
  /\ (posts (snd (serve upstream elapsed r w)) = posts w
      \/ exists req,
           gin.Method r = "POST" /\ gin.Path r = "/api/complete"
           /\ ShouldBindJSON (gin.RequestBody r) = (req, None)
           /\ PromptRequest_Prompt req <> ""
           /\ posts (snd (serve upstream elapsed r w))
              = (posts w ++ [upstreamCall (service w)
                               (PromptRequest_Prompt req)
                               (PromptRequest_Model req)])%list).
Proof.
  destruct r as [method path body], w as [svc0 log].
  cbn [gin.Method gin.Path gin.RequestBody service posts].
  destruct (String.eqb "POST" method) eqn:Epost.
  - apply String.eqb_eq in Epost. subst method.
    destruct (gin.getValue "/api/complete" path) as [found tsr] eqn:Hget.
    destruct found.
    + assert (path = "/api/complete")
        by (apply getValue_found; now rewrite Hget).
      subst path. rewrite serve_complete.
      destruct (ShouldBindJSON body) as [req [e | ]] eqn:Hbind;
        [ now split; [ | left ] | ].
      rewrite GetCompletion_unfold.
      cbn [service posts].
      assert (Hcall :
        exists req0,
          "POST" = "POST" /\ "/api/complete" = "/api/complete"
          /\ (req, @None error) = (req0, None)
          /\ PromptRequest_Prompt req0 <> ""
          /\ (log ++ [upstreamCall svc0 (PromptRequest_Prompt req)
                        (PromptRequest_Model req)])%list
             = (log ++ [upstreamCall svc0 (PromptRequest_Prompt req0)
                          (PromptRequest_Model req0)])%list).
      { exists req. repeat split. exact (ShouldBindJSON_prompt body req Hbind). }
      destruct (upstream _) as [resp | e];
        [ destruct (negb (StatusCode resp =? http_StatusOK));
          [ | destruct (snd (Decode_OllamaResponse (Body resp))) ] | ];
        (split; [ reflexivity | right; exact Hcall ]).
    + unfold serve, gin.ServeHTTP.
      cbn [router gin.trees gin.findTree gin.Method gin.Path gin.allNoRoute
           String.eqb Ascii.eqb Bool.eqb].
      rewrite Hget.
      destruct (_ && _ && tsr); (split; [ | left ]); reflexivity.
  - unfold serve, gin.ServeHTTP.
    cbn [router gin.trees gin.findTree gin.Method gin.Path gin.allNoRoute].
    rewrite Epost.
    destruct (String.eqb "GET" method) eqn:Eget.
    + apply String.eqb_eq in Eget. subst method.
      destruct (gin.getValue "/health" path) as [[ | ] tsr];
        [ | destruct (_ && _ && tsr) ]; (split; [ | left ]); reflexivity.
    + split; [ | left ]; cbv -[String.eqb];
        destruct (String.eqb method "OPTIONS"); reflexivity.
Qed.

End BoundaryEdges.

(** ** The service main builds *)

(** X7.  Whatever the environment holds, the service [main] builds has an
    upstream URL and a default model that are not empty (the variable when
    it is set to a non-empty value, else the built-in default) and a client
    timeout of 60 seconds; so every call [GetCompletion] makes on it goes to
    that URL followed by [/api/generate] and carries a model that is not
    empty: the supplied one, else the default. *)
Theorem main_service_never_sends_empty_model (Getenv : string -> string)
    (upstream : Upstream) (prompt model : string) (log : list http_Post) :
  let s := setup_service (main_setup Getenv) in
  ollamaURL s <> ""
  /\ defaultModel s <> ""
  /\ httpClient s = {| Timeout := 60000000000 |}
  /\ ollamaURL s
     = (if (Getenv "OLLAMA_URL" =? "")%string
        then "http://localhost:11434" else Getenv "OLLAMA_URL")
  /\ defaultModel s
     = (if (Getenv "DEFAULT_MODEL" =? "")%string
        then "llama2" else Getenv "DEFAULT_MODEL")
  /\ exists m,
       m <> ""
       /\ m = (if (model =? "")%string then defaultModel s else model)
       /\ posts (snd (GetCompletion upstream prompt model (mkWorld s log)))
          = (log ++
             [ {| post_client := {| Timeout := 60000000000 |};
                  post_url := ollamaURL s ++ "/api/generate";
                  post_contentType := "application/json";
                  post_body :=
                    fst (Marshal_OllamaRequest
                           {| OllamaRequest_Model := m;
                              OllamaRequest_Prompt := prompt |}) |} ])%list.
Proof.
  intros s. subst s. unfold main_setup. cbn [setup_service].
  set (url := if (Getenv "OLLAMA_URL" =? "")%string then _ else _).
  set (dm := if (Getenv "DEFAULT_MODEL" =? "")%string then _ else _).
  assert (Hurl : url <> "").
  { subst url. destruct (Getenv "OLLAMA_URL" =? "")%string eqn:E;
      [ discriminate | now apply String.eqb_neq ]. }
  assert (Hdm : dm <> "").
  { subst dm. destruct (Getenv "DEFAULT_MODEL" =? "")%string eqn:E;
      [ discriminate | now apply String.eqb_neq ]. }
  cbn [NewLLMService ollamaURL defaultModel httpClient].
  repeat (split; [ first [ assumption | reflexivity ] | ]).
  exists (if (model =? "")%string then dm else model).
  split; [ | split; [ reflexivity | ] ].
  - destruct (model =? "")%string eqn:E;
      [ assumption | now apply String.eqb_neq ].
  - rewrite GetCompletion_unfold. reflexivity.
Qed.

(** ** The table of the router *)

Lemma substring_all (s : string) : substring 0 (String.length s) s = s.
Proof. induction s as [ | c s IH]; cbn; [ reflexivity | now rewrite IH ]. Qed.

Lemma prefix_split (p s : string) :
  String.prefix p s = true ->
  s = (p ++ substring (String.length p) (String.length s - String.length p) s)%string.
Proof.
  revert s. induction p as [ | a p IH]; intros s H.
  - cbn. rewrite Nat.sub_0_r. symmetry. apply substring_all.
  - destruct s as [ | b s]; [ discriminate | ]. cbn in H.
    destruct (ascii_dec a b) as [-> | ]; [ | discriminate ].
    cbn. f_equal. now apply IH.
Qed.

(** A path that is neither the route nor the route with a slash after it is
    not matched, and no redirection is proposed for it, but for [/]. *)
Lemma getValue_miss (prefix path : string) :
  String.eqb (substring (String.length prefix - 1) 1 prefix) "/" = false ->
  path <> prefix ->
  path <> (prefix ++ "/")%string ->
  fst (gin.getValue prefix path) = false
  /\ (snd (gin.getValue prefix path) = true -> path = "/").
Proof.
  intros Hlast Hne Hslash. unfold gin.getValue.
  destruct ((String.length prefix <? String.length path)%nat
            && String.prefix prefix path) eqn:E1.
  - cbn [fst snd]. split; [ reflexivity | ]. intros Htsr.
    apply andb_prop in E1. destruct E1 as [_ Hp].
    apply String.eqb_eq in Htsr. apply prefix_split in Hp.
    rewrite Htsr in Hp. contradiction.
  - destruct (String.eqb path prefix) eqn:E2;
      [ apply String.eqb_eq in E2; contradiction | ].
    cbn [fst snd]. split; [ reflexivity | ]. intros Htsr.
    apply orb_prop in Htsr. destruct Htsr as [Htsr | Htsr];
      [ now apply String.eqb_eq | ].
    apply andb_prop in Htsr. destruct Htsr as [Htsr _].
    apply andb_prop in Htsr. destruct Htsr as [Hlen Hch].
    apply Nat.eqb_eq in Hlen.
    replace (String.length path) with (String.length prefix - 1)%nat in Hch
      by lia.
    congruence.
Qed.

Section RouteTable.

Variable upstream : Upstream.
Variable elapsed : string.

(** X6.  A request that is no preflight and matches neither route, nor a
    route with a slash after it, is answered 404 with the CORS headers,
    also when only its method differs from a route's (there is no 405), and
    no call to the upstream is made; the two routes with a slash after them
    are redirected to, by 307 and 301, before any handler. *)
Theorem unknown_route_is_404 (body : json.reader) (w : World) :
  (forall method path : string,
     method <> "OPTIONS" ->
     ~ (method = "POST"
        /\ (path = "/api/complete" \/ path = "/api/complete/")) ->
     ~ (method = "GET" /\ (path = "/health" \/ path = "/health/")) ->
     serve upstream elapsed (gin.mkRequest method path body) w
     = (gin.Served notFoundResponse, w))
  /\ serve upstream elapsed (gin.mkRequest "POST" "/api/complete/" body) w
     = (gin.Redirected 307, w)
  /\ serve upstream elapsed (gin.mkRequest "GET" "/health/" body) w
     = (gin.Redirected 301, w).
Proof.
  split; [ | split; reflexivity ].
  intros method path Hopt Hpost Hget.
  unfold serve, gin.ServeHTTP.
  cbn [router gin.trees gin.findTree gin.Method gin.Path gin.allNoRoute].
  destruct (String.eqb "POST" method) eqn:Epost.
  - apply String.eqb_eq in Epost. subst method.
    destruct (getValue_miss "/api/complete" path) as [Hf Ht];
      [ reflexivity | intros ->; apply Hpost; auto
      | intros ->; apply Hpost; auto | ].
    destruct (gin.getValue "/api/complete" path) as [found tsr].
    cbn [fst snd] in Hf, Ht. subst found.
    destruct (String.eqb path "/") eqn:Eroot.
    + reflexivity.
    + destruct tsr; [ | reflexivity ].
      rewrite (Ht eq_refl) in Eroot. discriminate.
  - destruct (String.eqb "GET" method) eqn:Eget.
    + apply String.eqb_eq in Eget. subst method.
      destruct (getValue_miss "/health" path) as [Hf Ht];
        [ reflexivity | intros ->; apply Hget; auto
        | intros ->; apply Hget; auto | ].
      destruct (gin.getValue "/health" path) as [found tsr].
      cbn [fst snd] in Hf, Ht. subst found.
      destruct (String.eqb path "/") eqn:Eroot.
      * reflexivity.
      * destruct tsr; [ | reflexivity ].
        rewrite (Ht eq_refl) in Eroot. discriminate.
    + apply String.eqb_neq in Hopt.
      cbv -[String.eqb]. rewrite Hopt. reflexivity.
Qed.

End RouteTable.

(** ** What a JSON reader finds in the bodies the program writes *)

Lemma chr_code (c : ascii) : chr (code c) = c.
Proof.
  unfold chr, code. rewrite N2Z.id. apply ascii_N_embedding.
Qed.

Lemma code_eq (c : ascii) (z : Z) : code c = z -> c = chr z.
Proof. intros <-. symmetry. apply chr_code. Qed.

Lemma string_app_assoc (a b c : string) : ((a ++ b) ++ c = a ++ b ++ c)%string.
Proof. induction a as [ | x a IH]; cbn; [ reflexivity | now rewrite IH ]. Qed.

Lemma scanStep_raw (c : ascii) ctx acc stack :
  32 <= code c -> code c <> 34 -> code c <> 92 ->
  json.scanStep (json.mkScanner (json.stateInString ctx acc) stack) c
  = json.goto (json.stateInString ctx (json.Raw c :: acc)) stack.
Proof.
  intros H32 H34 H92. unfold json.scanStep. cbn [json.step json.parseState].
  apply Z.eqb_neq in H34, H92. rewrite H34, H92.
  assert (Hlt : (code c <? 32) = false) by (apply Z.ltb_ge; lia).
  now rewrite Hlt.
Qed.

Lemma cont_high (c : ascii) (lo hi : Z) :
  128 <= lo -> between lo (code c) hi = true -> (utf8.RuneSelf <=? code c) = true.
Proof.
  unfold between, utf8.RuneSelf. intros Hlo H.
  apply andb_prop in H. destruct H as [H _]. apply Z.leb_le in H.
  apply Z.leb_le. lia.
Qed.

Lemma DecodeRune_high (c : ascii) (t : string) (r : Z) (size : nat) :
  utf8.DecodeRune (String c t) = (r, size) ->
  (r =? utf8.RuneError) && (size =? 1)%nat = false ->
  highPrefix (size - 1) t = true.
Proof.
  unfold utf8.DecodeRune.
  destruct (code c <? utf8.RuneSelf);
    [ intros H; inversion H; reflexivity | ].
  destruct (between 194 (code c) 223).
  { destruct t as [ | c1 t]; [ intros H; inversion H; reflexivity | ].
    destruct (utf8.cont c1) eqn:E1; intros H; inversion H; subst;
      [ | reflexivity ].
    intros _. cbn. rewrite (cont_high c1 128 191); [ reflexivity | lia | exact E1 ]. }
  destruct (between 224 (code c) 239).
  { destruct t as [ | c1 [ | c2 t]]; try (intros H; inversion H; reflexivity).
    match goal with |- context [between ?lo (code c1) ?hi] =>
      destruct (between lo (code c1) hi) eqn:E1 end;
      [ | intros H; inversion H; reflexivity ].
    destruct (utf8.cont c2) eqn:E2; intros H; inversion H; subst;
      [ | reflexivity ].
    intros _. cbn.
    rewrite (cont_high c2 128 191); [ | lia | exact E2 ].
    erewrite cont_high; [ reflexivity | | exact E1 ].
    destruct (code c =? 224); lia. }
  destruct (between 240 (code c) 244).
  { destruct t as [ | c1 [ | c2 [ | c3 t]]];
      try (intros H; inversion H; reflexivity).
    match goal with |- context [between ?lo (code c1) ?hi] =>
      destruct (between lo (code c1) hi) eqn:E1 end;
      [ | intros H; inversion H; reflexivity ].
    destruct (utf8.cont c2) eqn:E2; [ | intros H; inversion H; reflexivity ].
    destruct (utf8.cont c3) eqn:E3; intros H; inversion H; subst;
      [ | reflexivity ].
    intros _. cbn.
    rewrite (cont_high c2 128 191); [ | lia | exact E2 ].
    rewrite (cont_high c3 128 191); [ | lia | exact E3 ].
    erewrite cont_high; [ reflexivity | | exact E1 ].
    destruct (code c =? 240); lia. }
  intros H; inversion H; reflexivity.
Qed.

Lemma htmlSafe_raw (c : ascii) :
  json.htmlSafeSet (code c) = true ->
  32 <= code c /\ code c <> 34 /\ code c <> 92.
Proof.
  unfold json.htmlSafeSet, between. intros H.
  apply andb_prop in H. destruct H as [H1 H2].
  apply andb_prop in H1. destruct H1 as [H1 _]. apply Z.leb_le in H1.
  apply negb_true_iff in H2.
  repeat (apply orb_false_elim in H2; destruct H2 as [H2 ?]).
  repeat match goal with H : (_ =? _) = false |- _ => apply Z.eqb_neq in H end.
  lia.
Qed.

Ltac scan_known :=
  repeat match goal with
         | |- context [json.escapeByte ?b] =>
           let e := eval vm_compute in (json.escapeByte b) in
           change (json.escapeByte b) with e
         | |- context [escapeChunk ?c] =>
           let e := eval vm_compute in (escapeChunk c) in
           change (escapeChunk c) with e
         | |- context [str1 (hexDigit ?d)] =>
           let e := eval vm_compute in (str1 (hexDigit d)) in
           change (str1 (hexDigit d)) with e
         end;
  cbn [append json.scanBytes];
  repeat (match goal with
          | |- context [json.scanStep ?s ?ch] =>
            let r := eval cbv in (json.scanStep s ch) in
            change (json.scanStep s ch) with r
          end; cbv beta iota).

Lemma scan_encoded (s : string) :
  forall copy drop ctx acc stack rest,
    highPrefix copy s = true ->
    json.scanBytes (json.mkScanner (json.stateInString ctx acc) stack)
      (json.encodeBytes copy drop s ++ rest)
    = json.scanBytes
        (json.mkScanner
           (json.stateInString ctx (rev (chunksOf copy drop s) ++ acc)%list)
           stack) rest.
Proof.
  induction s as [ | c t IH]; intros copy drop ctx acc stack rest Hhigh.
  - reflexivity.
  - cbn [json.encodeBytes chunksOf]. destruct copy as [ | k].
    + destruct drop as [ | k]; [ | now apply IH ].
      destruct (code c <? utf8.RuneSelf) eqn:Hascii.
      * destruct (json.htmlSafeSet (code c)) eqn:Hsafe.
        -- destruct (htmlSafe_raw c Hsafe) as (H32 & H34 & H92).
           cbn [append json.scanBytes]. rewrite scanStep_raw by assumption.
           unfold json.goto. rewrite IH by reflexivity.
           cbn [rev]. now rewrite <- app_assoc.
        -- (destruct c as [[ | ] [ | ] [ | ] [ | ] [ | ] [ | ] [ | ] [ | ]];
             vm_compute in Hascii; try discriminate Hascii;
             vm_compute in Hsafe; try discriminate Hsafe).
           all: scan_known; rewrite IH by reflexivity; cbn [rev];
             now rewrite <- app_assoc.
      * destruct (utf8.DecodeRune (String c t)) as [r size] eqn:Hdec.
        assert (H32 : 32 <= code c)
          by (apply Z.ltb_ge in Hascii; unfold utf8.RuneSelf in Hascii; lia).
        assert (H34 : code c <> 34)
          by (apply Z.ltb_ge in Hascii; unfold utf8.RuneSelf in Hascii; lia).
        assert (H92 : code c <> 92)
          by (apply Z.ltb_ge in Hascii; unfold utf8.RuneSelf in Hascii; lia).
        destruct ((r =? utf8.RuneError) && (size =? 1)%nat) eqn:Hbad.
        -- rewrite !string_app_assoc. scan_known. rewrite IH by reflexivity.
           cbn [rev]. now rewrite <- app_assoc.
        -- destruct ((r =? 8232) || (r =? 8233)) eqn:Hsep.
           ++ apply orb_prop in Hsep.
              destruct Hsep as [Hr | Hr]; apply Z.eqb_eq in Hr; subst r;
                rewrite !string_app_assoc; scan_known;
                rewrite IH by reflexivity; cbn [rev];
                now rewrite <- app_assoc.
           ++ cbn [append json.scanBytes]. rewrite scanStep_raw by assumption.
              unfold json.goto.
              rewrite IH by (eapply DecodeRune_high; eassumption).
              cbn [rev]. now rewrite <- app_assoc.
    + cbn [highPrefix] in Hhigh. apply andb_prop in Hhigh.
      destruct Hhigh as [Hc Hk]. apply Z.leb_le in Hc.
      unfold utf8.RuneSelf in Hc.
      cbn [append json.scanBytes]. rewrite scanStep_raw by lia.
      unfold json.goto. rewrite IH by assumption.
      cbn [rev]. now rewrite <- app_assoc.
Qed.

Lemma code_range (c : ascii) : 0 <= code c < 256.
Proof.
  unfold code. pose proof (N_ascii_bounded c) as H. lia.
Qed.

Lemma chr_of_code (c : ascii) (z : Z) : z = code c -> chr z = c.
Proof. intros ->. apply chr_code. Qed.

Ltac bools :=
  repeat match goal with
         | H : _ && _ = true |- _ => apply andb_prop in H; destruct H
         | H : (_ <=? _) = true |- _ => apply Z.leb_le in H
         | H : (_ <=? _) = false |- _ => apply Z.leb_gt in H
         | H : (_ <? _) = true |- _ => apply Z.ltb_lt in H
         | H : (_ <? _) = false |- _ => apply Z.ltb_ge in H
         | H : (_ =? _) = true |- _ => apply Z.eqb_eq in H
         | H : (_ =? _) = false |- _ => apply Z.eqb_neq in H
         end.

Lemma DecodeRune_encoded (c : ascii) (t : string) (r : Z) (size : nat) :
  utf8.RuneSelf <= code c ->
  utf8.DecodeRune (String c t) = (r, size) ->
  (r =? utf8.RuneError) && (size =? 1)%nat = false ->
  encoded c t r size.
Proof.
  intros Hc. unfold utf8.DecodeRune, utf8.cont, utf8.low6.
  destruct (code c <? utf8.RuneSelf) eqn:E0; [ bools; lia | ].
  destruct (between 194 (code c) 223) eqn:E2.
  { destruct t as [ | c1 t]; [ intros H; inversion H; subst; discriminate | ].
    destruct (between 128 (code c1) 191) eqn:E1; intros H; inversion H; subst;
      [ | discriminate ].
    intros _. unfold between in *. bools. eapply encoded2; eauto; lia. }
  destruct (between 224 (code c) 239) eqn:E3.
  { destruct t as [ | c1 [ | c2 t]];
      try (intros H; inversion H; subst; discriminate).
    match goal with |- context [between ?lo (code c1) ?hi] =>
      destruct (between lo (code c1) hi) eqn:E1 end;
      [ | intros H; inversion H; subst; discriminate ].
    destruct (between 128 (code c2) 191) eqn:E4; intros H; inversion H; subst;
      [ | discriminate ].
    intros _. unfold between in *. bools.
    eapply encoded3; eauto;
      destruct (code c =? 224) eqn:?; destruct (code c =? 237) eqn:?;
      bools; lia. }
  destruct (between 240 (code c) 244) eqn:E4.
  { destruct t as [ | c1 [ | c2 [ | c3 t]]];
      try (intros H; inversion H; subst; discriminate).
    match goal with |- context [between ?lo (code c1) ?hi] =>
      destruct (between lo (code c1) hi) eqn:E1 end;
      [ | intros H; inversion H; subst; discriminate ].
    destruct (between 128 (code c2) 191) eqn:E5;
      [ | intros H; inversion H; subst; discriminate ].
    destruct (between 128 (code c3) 191) eqn:E6; intros H; inversion H; subst;
      [ | discriminate ].
    intros _. unfold between in *. bools.
    eapply encoded4; eauto;
      destruct (code c =? 240) eqn:?; destruct (code c =? 244) eqn:?;
      bools; lia. }
  intros H; inversion H; subst; discriminate.
Qed.

Ltac zarith := Z.div_mod_to_equations; lia.

Ltac decide_cmp :=
  repeat match goal with
         | |- context [?a <=? ?b] =>
           first [ replace (a <=? b) with true
                     by (symmetry; apply Z.leb_le; zarith)
                 | replace (a <=? b) with false
                     by (symmetry; apply Z.leb_gt; zarith) ]
         | |- context [?a <? ?b] =>
           first [ replace (a <? b) with true
                     by (symmetry; apply Z.ltb_lt; zarith)
                 | replace (a <? b) with false
                     by (symmetry; apply Z.ltb_ge; zarith) ]
         | |- context [?a =? ?b] =>
           first [ replace (a =? b) with true
                     by (symmetry; apply Z.eqb_eq; zarith)
                 | replace (a =? b) with false
                     by (symmetry; apply Z.eqb_neq; zarith) ]
         end;
  cbn [andb orb negb].

Lemma encoded_EncodeRune (c : ascii) (t : string) (r : Z) (size : nat) :
  encoded c t r size ->
  String c t = (utf8.EncodeRune r ++ dropBytes (size - 1) t)%string.
Proof.
  intros [c1 t1 -> -> Hc H1 Hr
         | c1 c2 t2 -> -> Hc H1 Hlo Hhi H2 Hr
         | c1 c2 c3 t3 -> -> Hc H1 Hlo Hhi H2 H3 Hr];
    cbn [Nat.sub dropBytes];
    pose proof (code_range c); pose proof (code_range c1);
    unfold utf8.EncodeRune, utf8.enc3, utf8.MaxRune, utf8.RuneError, between.
  - decide_cmp. cbn [append str1].
    repeat f_equal; symmetry; apply chr_of_code; zarith.
  - pose proof (code_range c2).
    assert (Hcases : code c = 224 \/ 225 <= code c <= 236 \/ code c = 237
                     \/ 238 <= code c) by lia.
    destruct Hcases as [Hk | [Hk | [Hk | Hk]]];
      decide_cmp; cbn [append str1];
      repeat f_equal; symmetry; apply chr_of_code; zarith.
  - pose proof (code_range c2). pose proof (code_range c3).
    assert (Hcases : code c = 240 \/ code c = 244 \/ (code c <> 240 /\ code c <> 244)) by lia.
    destruct Hcases as [Hk | [Hk | Hk]];
      decide_cmp; cbn [append str1];
      repeat f_equal; symmetry; apply chr_of_code; zarith.
Qed.

Lemma encoded_reread (c : ascii) (t : string) (r : Z) (size : nat) :
  encoded c t r size ->
  utf8.DecodeRune (String c (json.rawPrefix 3 (chunksOf (size - 1) 0 t)))
  = (r, size).
Proof.
  intros [c1 t1 -> -> Hc H1 Hr
         | c1 c2 t2 -> -> Hc H1 Hlo Hhi H2 Hr
         | c1 c2 c3 t3 -> -> Hc H1 Hlo Hhi H2 H3 Hr];
    cbn [Nat.sub chunksOf json.rawPrefix];
    unfold utf8.DecodeRune, utf8.cont, utf8.low6, utf8.RuneSelf, between.
  - decide_cmp. now subst r.
  - assert (Hcases : code c = 224 \/ code c = 237
                     \/ (code c <> 224 /\ code c <> 237)) by lia.
    destruct Hcases as [Hk | [Hk | Hk]]; decide_cmp; now subst r.
  - assert (Hcases : code c = 240 \/ code c = 244
                     \/ (code c <> 240 /\ code c <> 244)) by lia.
    destruct Hcases as [Hk | [Hk | Hk]]; decide_cmp; now subst r.
Qed.

Lemma unquote_raw (c : ascii) (l : list json.chunk) :
  json.unquote 0 (json.Raw c :: l)
  = if code c <? utf8.RuneSelf then String c (json.unquote 0 l)
    else
      let (r, size) := utf8.DecodeRune (String c (json.rawPrefix 3 l)) in
      (utf8.EncodeRune r ++ json.unquote (size - 1) l)%string.
Proof.
  reflexivity.
Qed.

(** A reader of the chunks of an encoded valid string gets the string. *)
Lemma unquote_chunksOf (s : string) :
  forall k,
    validFrom k s = true ->
    json.unquote k (chunksOf k 0 s) = dropBytes k s
    /\ json.unquote 0 (chunksOf 0 k s) = dropBytes k s.
Proof.
  induction s as [ | c t IH]; intros k Hvalid.
  - destruct k; split; reflexivity.
  - destruct k as [ | k].
    + cbn [validFrom] in Hvalid.
      destruct (utf8.DecodeRune (String c t)) as [r size] eqn:Hdec.
      apply andb_prop in Hvalid. destruct Hvalid as [Hok Hrest].
      apply negb_true_iff in Hok.
      assert (Hgoal : json.unquote 0 (chunksOf 0 0 (String c t)) = String c t).
      { cbn [chunksOf]. rewrite Hdec.
        destruct (code c <? utf8.RuneSelf) eqn:Hascii.
        - assert (Hsize : size = 1%nat).
          { unfold utf8.DecodeRune in Hdec. rewrite Hascii in Hdec.
            now inversion Hdec. }
          subst size. cbn [Nat.sub] in Hrest.
          destruct (IH 0%nat Hrest) as [IH0 _]. cbn [dropBytes] in IH0.
          destruct (json.htmlSafeSet (code c)).
          + cbn [json.unquote]. rewrite Hascii. now rewrite IH0.
          + unfold escapeChunk.
            destruct (_ || _ || _ || _ || _).
            * cbn [json.unquote]. now rewrite IH0.
            * cbn [json.unquote]. pose proof (code_range c).
              unfold utf8.RuneSelf in Hascii. bools.
              unfold utf16.IsSurrogate, utf8.EncodeRune, between.
              decide_cmp. cbn [append str1]. now rewrite chr_code, IH0.
        - bools.
          pose proof (DecodeRune_encoded c t r size Hascii Hdec Hok) as Henc.
          rewrite Hok.
          destruct ((r =? 8232) || (r =? 8233)) eqn:Hsep.
          + cbn [json.unquote].
            replace (utf16.IsSurrogate r) with false
              by (apply orb_prop in Hsep; unfold utf16.IsSurrogate;
                  destruct Hsep; bools; subst r; reflexivity).
            destruct (IH (size - 1)%nat Hrest) as [_ IHd]. rewrite IHd.
            symmetry. now apply encoded_EncodeRune.
          + rewrite unquote_raw.
            replace (code c <? utf8.RuneSelf) with false
              by (symmetry; apply Z.ltb_ge; assumption).
            rewrite (encoded_reread c t r size Henc).
            destruct (IH (size - 1)%nat Hrest) as [IHc _]. rewrite IHc.
            symmetry. now apply encoded_EncodeRune. }
      split; exact Hgoal.
    + cbn [validFrom] in Hvalid. destruct (IH k Hvalid) as [IHc IHd].
      split; [ exact IHc | exact IHd ].
Qed.

Lemma scan_string (s : string) ctx stack rest :
  json.scanBytes (json.mkScanner (json.stateInString ctx []) stack)
    (json.encodeBytes 0 0 s ++ rest)
  = json.scanBytes
      (json.mkScanner (json.stateInString ctx (rev (chunksOf 0 0 s))) stack)
      rest.
Proof.
  rewrite scan_encoded by reflexivity. now rewrite app_nil_r.
Qed.

Lemma scan_member (k v : string) members stack rest :
  json.scanBytes (json.mkScanner (json.stateBeginString members) stack)
    (json.encodeString k ++ ":" ++ json.encodeString v ++ rest)
  = json.scanBytes
      (json.mkScanner
         (json.stateEndValue
            (json.CObject ((readBack k, json.JString (readBack v)) :: members)))
         stack) rest.
Proof.
  unfold json.encodeString, readBack. rewrite !string_app_assoc.
  change (dq ++ json.encodeBytes 0 0 k ++ ?x)%string
    with (String (chr 34) (json.encodeBytes 0 0 k ++ x)).
  cbn [json.scanBytes].
  change (json.scanStep
            (json.mkScanner (json.stateBeginString members) stack) (chr 34))
    with (json.scanContinue
            (json.mkScanner (json.stateInString (json.asKey members) []) stack)).
  cbv beta iota. rewrite scan_string.
  change (dq ++ ":" ++ dq ++ json.encodeBytes 0 0 v ++ ?x)%string
    with (String (chr 34) (String ":"%char (String (chr 34)
            (json.encodeBytes 0 0 v ++ x)))).
  cbn [json.scanBytes].
  change (json.scanStep
            (json.mkScanner
               (json.stateInString (json.asKey members) (rev (chunksOf 0 0 k)))
               stack) (chr 34))
    with (json.scanContinue
            (json.mkScanner
               (json.stateAfterKey members
                  (json.unquote 0 (rev (rev (chunksOf 0 0 k))))) stack)).
  cbv beta iota.
  match goal with
  | |- context [json.scanStep (json.mkScanner (json.stateAfterKey ?m ?key) ?st) ":"%char] =>
    change (json.scanStep (json.mkScanner (json.stateAfterKey m key) st) ":"%char)
      with (json.scanContinue
              (json.mkScanner json.stateBeginValue (json.inObject m key :: st)))
  end.
  cbv beta iota.
  match goal with
  | |- context [json.scanStep (json.mkScanner json.stateBeginValue ?st) (chr 34)] =>
    change (json.scanStep (json.mkScanner json.stateBeginValue st) (chr 34))
      with (json.scanContinue
              (json.mkScanner (json.stateInString json.asValue []) st))
  end.
  cbv beta iota. rewrite scan_string.
  change (dq ++ rest)%string with (String (chr 34) rest).
  cbn [json.scanBytes].
  match goal with
  | |- context [json.scanStep
                  (json.mkScanner (json.stateInString json.asValue ?acc)
                     (json.inObject ?m ?key :: ?st)) (chr 34)] =>
    change (json.scanStep
              (json.mkScanner (json.stateInString json.asValue acc)
                 (json.inObject m key :: st)) (chr 34))
      with (json.scanContinue
              (json.mkScanner
                 (json.stateEndValue
                    (json.CObject
                       ((key, json.JString (json.unquote 0 (rev acc))) :: m)))
                 st))
  end.
  cbv beta iota. now rewrite !rev_involutive.
Qed.

Lemma scan_members (fields : list (string * string)) :
  forall members stack rest,
    fields <> [] ->
    json.scanBytes (json.mkScanner (json.stateBeginString members) stack)
      (json.encodeMembers fields ++ rest)
    = json.scanBytes
        (json.mkScanner
           (json.stateEndValue
              (json.CObject (rev (decodedMembers fields) ++ members)%list))
           stack) rest.
Proof.
  induction fields as [ | [k v] fields IH]; intros members stack rest Hne;
    [ contradiction | ].
  destruct fields as [ | kv fields].
  - cbn [json.encodeMembers]. rewrite !string_app_assoc.
    now rewrite scan_member.
  - change (json.encodeMembers ((k, v) :: kv :: fields))
      with (json.encodeString k ++ ":" ++ json.encodeString v ++ ","
              ++ json.encodeMembers (kv :: fields))%string.
    rewrite !string_app_assoc. rewrite scan_member.
    change ("," ++ ?x)%string with (String ","%char x).
    cbn [json.scanBytes].
    match goal with
    | |- context [json.scanStep
                    (json.mkScanner (json.stateEndValue (json.CObject ?m)) ?st)
                    ","%char] =>
      change (json.scanStep
                (json.mkScanner (json.stateEndValue (json.CObject m)) st)
                ","%char)
        with (json.scanContinue
                (json.mkScanner (json.stateBeginString m) st))
    end.
    cbv beta iota. rewrite IH by discriminate.
    cbn [decodedMembers map rev]. now rewrite <- !app_assoc.
Qed.

Lemma readValue_Marshal (fields : list (string * string)) (e : option error) :
  json.readValue (json.mkReader (fst (json.Marshal fields)) e)
  = inl (json.JObject (decodedMembers fields)).
Proof.
  destruct fields as [ | [k v] fields]; [ reflexivity | ].
  unfold json.readValue, json.Marshal. cbn [fst json.data].
  change ("{" ++ ?x)%string with (String "{"%char x).
  cbn [json.scanBytes].
  change (json.scanStep (json.mkScanner json.stateBeginValue []) "{"%char)
    with (json.scanContinue (json.mkScanner json.stateBeginStringOrEmpty [])).
  cbv beta iota.
  assert (Hfirst : forall x,
    json.scanBytes (json.mkScanner json.stateBeginStringOrEmpty [])
      (json.encodeMembers ((k, v) :: fields) ++ x)
    = json.scanBytes (json.mkScanner (json.stateBeginString []) [])
        (json.encodeMembers ((k, v) :: fields) ++ x)).
  { intros x. destruct fields; reflexivity. }
  rewrite Hfirst, scan_members by discriminate.
  rewrite app_nil_r. cbn [json.scanBytes].
  change (json.scanStep
            (json.mkScanner
               (json.stateEndValue
                  (json.CObject (rev (decodedMembers ((k, v) :: fields)))))
               []) "}"%char)
    with (json.scanEnd
            (json.JObject (rev (rev (decodedMembers ((k, v) :: fields)))))).
  cbv beta iota. now rewrite rev_involutive.
Qed.

(** A valid string is read back as it is. *)
Lemma readBack_valid (s : string) : ValidString s = true -> readBack s = s.
Proof.
  intros H. exact (proj1 (unquote_chunksOf s 0%nat H)).
Qed.

(** C2 (as amended).  Every call of [GetCompletion] makes exactly one call
    to the upstream, a POST to the URL of the service followed by
    [/api/generate], whose body is one JSON object with the members [model]
    and [prompt]; when the effective model, the supplied one or the default
    model of the service when none is supplied, is valid UTF-8, the [model]
    member is that model. *)
Theorem GetCompletion_upstream_model (upstream : Upstream)
    (prompt model : string) (w : World) (e : option error) :
  exists p m' p',
    posts (snd (GetCompletion upstream prompt model w)) = (posts w ++ [p])%list
    /\ post_url p = ollamaURL (service w) ++ "/api/generate"
    /\ post_contentType p = "application/json"
    /\ json.readValue (json.mkReader (post_body p) e)
       = inl (json.JObject [("model", json.JString m');
                            ("prompt", json.JString p')])
    /\ (ValidString (if (model =? "")%string
                     then defaultModel (service w) else model) = true ->
        m' = if (model =? "")%string then defaultModel (service w) else model).
Proof.
  exists (upstreamCall (service w) prompt model),
    (readBack (effectiveModel (service w) model)), (readBack prompt).
  rewrite GetCompletion_unfold.
  split; [ reflexivity | ]. split; [ reflexivity | ]. split; [ reflexivity | ].
  split; [ | exact (readBack_valid _) ].
  unfold upstreamCall, Marshal_OllamaRequest. cbn [post_body].
  rewrite readValue_Marshal. reflexivity.
Qed.

(** X8.  Whatever bytes the prompt and the model hold, the body
    [GetCompletion] posts is one JSON object with the two members [model]
    and [prompt], both strings: no byte of the prompt can end its string or
    add a member.  When both are valid UTF-8, a reader gets back exactly
    the effective model and the prompt. *)
Theorem upstream_body_reads_back (upstream : Upstream) (prompt model : string)
    (w : World) (e : option error) :
  exists p,
    posts (snd (GetCompletion upstream prompt model w)) = (posts w ++ [p])%list
    /\ (exists m' p',
          json.readValue (json.mkReader (post_body p) e)
          = inl (json.JObject [("model", json.JString m');
                               ("prompt", json.JString p')]))
    /\ (ValidString (effectiveModel (service w) model) = true ->
        ValidString prompt = true ->
        json.readValue (json.mkReader (post_body p) e)
        = inl (json.JObject
                 [("model", json.JString (effectiveModel (service w) model));
                  ("prompt", json.JString prompt)])).
Proof.
  exists (upstreamCall (service w) prompt model).
  rewrite GetCompletion_unfold. split; [ reflexivity | ].
  unfold upstreamCall, Marshal_OllamaRequest. cbn [post_body].
  rewrite readValue_Marshal.
  cbn [decodedMembers map fst snd OllamaRequest_Model OllamaRequest_Prompt].
  change (readBack "model") with "model".
  change (readBack "prompt") with "prompt".
  split; [ eauto | ].
  intros Hm Hp. now rewrite (readBack_valid _ Hm), (readBack_valid _ Hp).
Qed.

Section EnvelopeRead.

Variable upstream : Upstream.
Variable elapsed : string.

(** X11.  A JSON reader of the 200 envelope finds the three members
    [response], [model] and [time], holding the text [GetCompletion]
    returned, the inbound model and the elapsed time, when these are valid
    UTF-8. *)
Theorem envelope_reads_back (body : json.reader) (w : World)
    (req : PromptRequest) (text : string) (e : option error) :
  ShouldBindJSON body = (req, None) ->
  fst (GetCompletion upstream (PromptRequest_Prompt req)
         (PromptRequest_Model req) w) = (text, None) ->
  ValidString text = true ->
  ValidString (PromptRequest_Model req) = true ->
  ValidString elapsed = true ->
  exists resp,
    fst (serve upstream elapsed (gin.mkRequest "POST" "/api/complete" body) w)
    = gin.Served resp
    /\ gin.resp_status resp = http_StatusOK
    /\ json.readValue (json.mkReader (gin.resp_body resp) e)
       = inl (json.JObject
                [("response", json.JString text);
                 ("model", json.JString (PromptRequest_Model req));
                 ("time", json.JString elapsed)]).
Proof.
  intros Hbind Hget Htext Hmodel Htime.
  rewrite serve_complete, Hbind.
  destruct (GetCompletion _ _ _ _) as [[text' err] w'].
  cbn [fst] in Hget. inversion Hget; subst text' err.
  eexists. split; [ reflexivity | ]. split; [ reflexivity | ].
  cbn [gin.resp_body]. unfold Marshal_PromptResponse.
  rewrite readValue_Marshal.
  cbn [decodedMembers map fst snd PromptResponse_Response
       PromptResponse_Model PromptResponse_Time].
  change (readBack "response") with "response".
  change (readBack "model") with "model".
  change (readBack "time") with "time".
  now rewrite (readBack_valid _ Htext), (readBack_valid _ Hmodel),
    (readBack_valid _ Htime).
Qed.

End EnvelopeRead.

(** ** The further properties at sample inputs *)

(** X1: the upstream cannot be reached. *)
Lemma relay_failure_is_500_witness :
  serve unreachable "1.5ms"
    (request "POST" "/api/complete" (q "{'prompt':'hello'}")) world0
  = (gin.Served
       (gin.mkResponse 500 jsonHeaders
          (q "{'error':'ollama request failed: dial tcp 127.0.0.1:11434: connect: connection refused'}")),
     mkWorld svc [upstreamCall svc "hello" ""]).
Proof.
  apply (relay_failure_is_500 unreachable "1.5ms"
           (json.mkReader (q "{'prompt':'hello'}") None) world0
           (mkPromptRequest "hello" "")
           (wrapError
              "ollama request failed: dial tcp 127.0.0.1:11434: connect: connection refused"
              (errorString
                 "dial tcp 127.0.0.1:11434: connect: connection refused"))).
  - vm_compute. reflexivity.
  - vm_compute. reflexivity.
Defined.

(** X2: a boolean under [created_at] comes first, an array under [model]
    and the text after it. *)
Lemma GetCompletion_first_type_error_witness :
  fst (GetCompletion
         (replies 200 (q "{'created_at':false,'model':[1],'response':'hi'}"))
         "hello" "" world0)
  = ("",
     Some (wrapError
             "failed to decode ollama response: json: cannot unmarshal bool into Go struct field OllamaResponse.created_at of type string"
             (json_UnmarshalTypeError "bool" "string" "OllamaResponse"
                "created_at"))).
Proof.
  apply (GetCompletion_first_type_error
           (replies 200 (q "{'created_at':false,'model':[1],'response':'hi'}"))
           "hello" "" world0
           (mkResponse 200
              (json.mkReader
                 (q "{'created_at':false,'model':[1],'response':'hi'}") None))
           []
           [("model", json.JArray [json.JNumber "1"]);
            ("response", json.JString "hi")]
           "created_at" "created_at" (json.JBool false)).
  - reflexivity.
  - reflexivity.
  - vm_compute. reflexivity.
  - intros key' v' Hin. destruct Hin.
  - vm_compute. reflexivity.
  - intros [[s Hs] | Hs]; discriminate.
Defined.

(** X3: a streamed answer, one object per line: the first line alone
    decides. *)
Lemma GetCompletion_first_value_only_witness :
  fst (GetCompletion (replies 200 (q "{'response':'Hel','done':false}"))
         "hello" "" world0)
  = fst (GetCompletion
           (replies 200
              (q "{'response':'Hel','done':false}"
                 ++ String (chr 10) (q "{'response':'lo','done':true}")))
           "hello" "" world0).
Proof.
  apply (GetCompletion_first_value_only
           (replies 200 (q "{'response':'Hel','done':false}"))
           (replies 200
              (q "{'response':'Hel','done':false}"
                 ++ String (chr 10) (q "{'response':'lo','done':true}")))
           "hello" "" world0
           (q "{'response':'Hel','done':false}")
           (String (chr 10) (q "{'response':'lo','done':true}"))
           None None
           (json.JObject [("response", json.JString "Hel");
                          ("done", json.JBool false)])).
  - vm_compute. reflexivity.
  - reflexivity.
  - reflexivity.
Defined.

(** X4: the bodies [null] and [{"model":"llama2"}]. *)
Lemma GetCompletion_empty_text_witness :
  fst (GetCompletion (replies 200 "null") "hello" "" world0) = ("", None)
  /\ fst (GetCompletion (replies 200 (q "{'model':'llama2'}")) "hello" ""
            world0) = ("", None).
Proof.
  split.
  - apply (GetCompletion_empty_text (replies 200 "null") "hello" "" world0
             (mkResponse 200 (json.mkReader "null" None)));
      [ reflexivity | reflexivity | left; vm_compute; reflexivity ].
  - apply (GetCompletion_empty_text (replies 200 (q "{'model':'llama2'}"))
             "hello" "" world0
             (mkResponse 200 (json.mkReader (q "{'model':'llama2'}") None)));
      [ reflexivity | reflexivity | right ].
    exists [("model", json.JString "llama2")].
    split; [ vm_compute; reflexivity | ].
    split.
    + intros key v Hin _. destruct Hin as [Hin | []].
      inversion Hin. left. eauto.
    + intros key v s Hin Hkey. destruct Hin as [Hin | []].
      inversion Hin; subst. vm_compute in Hkey. discriminate.
Defined.

(** X6: the completion route asked with GET. *)
Lemma unknown_route_is_404_witness :
  serve unreachable "1.5ms" (request "GET" "/api/complete" "") world0
  = (gin.Served notFoundResponse, world0).
Proof.
  apply (proj1 (unknown_route_is_404 unreachable "1.5ms"
                  (json.mkReader "" None) world0) "GET" "/api/complete").
  - discriminate.
  - intros [H _]. discriminate H.
  - intros [_ [H | H]]; discriminate H.
Defined.

(** X8: a prompt that tries to close its string and add a member. *)
Lemma upstream_body_reads_back_witness :
  exists p,
    posts (snd (GetCompletion unreachable (q "x'},'model':'other") "" world0))
    = [p]
    /\ json.readValue (json.mkReader (post_body p) None)
       = inl (json.JObject
                [("model", json.JString "llama2");
                 ("prompt", json.JString (q "x'},'model':'other"))]).
Proof.
  destruct (upstream_body_reads_back unreachable (q "x'},'model':'other") ""
              world0 None) as (p & Hposts & _ & Hvalid).
  exists p. split; [ exact Hposts | ].
  apply Hvalid; vm_compute; reflexivity.
Defined.

(** X9 and X11: the end-to-end example. *)
Lemma envelope_carries_response_witness :
  fst (serve
         (replies 200 (q "{'model':'llama2','created_at':'t','response':'hi there'}"))
         "1.5ms" (request "POST" "/api/complete" (q "{'prompt':'hello'}"))
         world0)
  = gin.Served
      (gin.mkResponse 200 jsonHeaders
         (q "{'response':'hi there','model':'','time':'1.5ms'}")).
Proof.
  apply (envelope_carries_response
           (replies 200 (q "{'model':'llama2','created_at':'t','response':'hi there'}"))
           "1.5ms" (json.mkReader (q "{'prompt':'hello'}") None) world0
           (mkPromptRequest "hello" "")
           (mkResponse 200
              (json.mkReader
                 (q "{'model':'llama2','created_at':'t','response':'hi there'}")
                 None))
           [("model", json.JString "llama2"); ("created_at", json.JString "t")]
           [] "response" "hi there").
  - vm_compute. reflexivity.
  - reflexivity.
  - reflexivity.
  - vm_compute. reflexivity.
  - vm_compute. reflexivity.
  - intros key' v s' Hin. destruct Hin.
  - intros key' v Hin _. cbn in Hin.
    destruct Hin as [Hin | [Hin | [Hin | Hin]]];
      [ inversion Hin; left; eauto .. | destruct Hin ].
Defined.

Lemma envelope_reads_back_witness :
  exists resp,
    fst (serve
           (replies 200 (q "{'model':'llama2','created_at':'t','response':'hi there'}"))
           "1.5ms" (request "POST" "/api/complete" (q "{'prompt':'hello'}"))
           world0)
    = gin.Served resp
    /\ gin.resp_status resp = 200
    /\ json.readValue (json.mkReader (gin.resp_body resp) None)
       = inl (json.JObject
                [("response", json.JString "hi there");
                 ("model", json.JString "");
                 ("time", json.JString "1.5ms")]).
Proof.
  apply (envelope_reads_back
           (replies 200 (q "{'model':'llama2','created_at':'t','response':'hi there'}"))
           "1.5ms" (json.mkReader (q "{'prompt':'hello'}") None) world0
           (mkPromptRequest "hello" "") "hi there" None);
    vm_compute; reflexivity.
Defined.

(** X10: no body at all, and a body cut short. *)
Lemma unreadable_body_rejected_witness :
  serve unreachable "1.5ms" (request "POST" "/api/complete" "") world0
  = (gin.Served (gin.mkResponse 400 jsonHeaders (q "{'error':'EOF'}")), world0)
  /\ serve unreachable "1.5ms"
       (request "POST" "/api/complete" (q "{'prompt':")) world0
     = (gin.Served (gin.mkResponse 400 jsonHeaders
                      (q "{'error':'unexpected EOF'}")), world0).
Proof.
  split.
  - apply (unreadable_body_rejected unreachable "1.5ms"
             (json.mkReader "" None) world0 io_EOF).
    vm_compute. reflexivity.
  - apply (unreadable_body_rejected unreachable "1.5ms"
             (json.mkReader (q "{'prompt':") None) world0 io_ErrUnexpectedEOF).
    vm_compute. reflexivity.
Defined.

(** A supplied model, and none. *)
Lemma GetCompletion_upstream_model_witness :
  (exists p,
     posts (snd (GetCompletion unreachable "hello" "mistral" world0)) = [p]
     /\ post_body p = q "{'model':'mistral','prompt':'hello'}"
     /\ json.readValue (json.mkReader (post_body p) None)
        = inl (json.JObject [("model", json.JString "mistral");
                             ("prompt", json.JString "hello")]))
  /\ (exists p,
        posts (snd (GetCompletion unreachable "hello" "" world0)) = [p]
        /\ post_body p = q "{'model':'llama2','prompt':'hello'}"
        /\ json.readValue (json.mkReader (post_body p) None)
           = inl (json.JObject [("model", json.JString "llama2");
                                ("prompt", json.JString "hello")])).
Proof.
  split.
  - destruct (GetCompletion_upstream_model unreachable "hello" "mistral"
                world0 None) as (p & m' & p' & Hposts & _ & _ & Hread & Hm).
    exists p. split; [ exact Hposts | ].
    vm_compute in Hposts. inversion Hposts; subst p.
    split; [ vm_compute; reflexivity | vm_compute; reflexivity ].
  - destruct (GetCompletion_upstream_model unreachable "hello" "" world0 None)
      as (p & m' & p' & Hposts & _ & _ & Hread & Hm).
    exists p. split; [ exact Hposts | ].
    vm_compute in Hposts. inversion Hposts; subst p.
    split; [ vm_compute; reflexivity | vm_compute; reflexivity ].
Defined.

(** C2 as stated fails: for the model of the one byte 255, which is not
    valid UTF-8, the [model] member of the body posted is U+FFFD, not the
    model supplied. *)
Lemma GetCompletion_coerces_model :
  posts (snd (GetCompletion unreachable "hello" (String (chr 255) "") world0))
  = [ {| post_client := {| Timeout := 60000000000 |};
         post_url := "http://localhost:11434/api/generate";
         post_contentType := "application/json";
         post_body := q "{'model':'\" ++ "ufffd" ++ q "','prompt':'hello'}" |} ]
  /\ json.readValue
       (json.mkReader
          (q "{'model':'\" ++ "ufffd" ++ q "','prompt':'hello'}") None)
     = inl (json.JObject
              [("model",
                json.JString
                  (String (chr 239) (String (chr 191) (String (chr 189) ""))));
               ("prompt", json.JString "hello")])
  /\ String (chr 239) (String (chr 191) (String (chr 189) ""))
     <> String (chr 255) "".
Proof.
  split; [ vm_compute; reflexivity | ].
  split; [ vm_compute; reflexivity | ].
  vm_compute. discriminate.
Qed.
